(** * MedAI_Chat: the two JSON endpoints of [medical_app/views.py]

    A shallow embedding of [chat_api] and [initial_consultation_api] and of
    the fragment of Python they run on (JSON values, truthiness, [dict.get],
    slicing, the regular expression [<[^>]+>], exceptions), followed by the
    properties of the handlers. *)

From Stdlib Require Import List ZArith NArith Bool Ascii String Lia.
From Stdlib Require Import Floats.SpecFloat.
Import ListNotations.

Set Implicit Arguments.
Set Warnings "-register-all".

(* ================================================================== *)
(** ** Python strings *)

(** A Python [str] is a sequence of Unicode code points; [len] and slices
    count code points, not bytes. *)
Definition pychar : Type := N.
Definition pystr : Type := list pychar.

(** The literals of the source file are UTF-8 text.  [utf8_decode need acc bs]
    reads the bytes [bs], with [need] continuation bytes still owed to the
    code point accumulated in [acc]. *)
Fixpoint utf8_decode (need : nat) (acc : N) (bs : list N) : pystr :=
  match bs with
  | [] => []
  | b :: rest =>
      match need with
      | S k =>
          let acc' := (acc * 64 + b mod 64)%N in
          match k with
          | O => acc' :: utf8_decode 0 0%N rest
          | S _ => utf8_decode k acc' rest
          end
      | O =>
          if (b <? 128)%N then b :: utf8_decode 0 0%N rest
          else if (b <? 224)%N then utf8_decode 1 (b mod 32)%N rest
          else if (b <? 240)%N then utf8_decode 2 (b mod 16)%N rest
          else utf8_decode 3 (b mod 8)%N rest
      end
  end.

(** [py "text"] is the Python string literal ['text']. *)
Definition py (s : string) : pystr :=
  utf8_decode 0 0%N (map N_of_ascii (list_ascii_of_string s)).

Fixpoint str_eqb (a b : pystr) : bool :=
  match a, b with
  | [], [] => true
  | x :: a', y :: b' => (x =? y)%N && str_eqb a' b'
  | _, _ => false
  end.

Definition ch_lt : pychar := 60%N.   (* '<' *)
Definition ch_gt : pychar := 62%N.   (* '>' *)
Definition ch_dquote : pychar := 34%N.
Definition dq : pystr := [ch_dquote].

(** Python's slice index adjustment for [seq[start:]] and [seq[:stop]]
    (step 1): a negative index counts from the end, and the result is
    clamped to the sequence. *)
Definition adjust_index (i : Z) (len : nat) : nat :=
  let n := Z.of_nat len in
  Z.to_nat (if (i <? 0)%Z then Z.max 0 (i + n) else Z.min i n).

Definition slice_from {A : Type} (start : Z) (l : list A) : list A :=
  skipn (adjust_index start (List.length l)) l.

Definition slice_to {A : Type} (stop : Z) (l : list A) : list A :=
  firstn (adjust_index stop (List.length l)) l.

(* ================================================================== *)
(** ** JSON values, as [json.loads] returns them *)

(** [None], [bool], [int], [float], [str], [list] and [dict].  A dict is kept
    as its list of items; [dict_lookup] reads the first binding of a key. *)
Inductive json : Type :=
| JNull
| JBool (b : bool)
| JInt (z : Z)
| JFloat (f : spec_float)
| JStr (s : pystr)
| JArr (l : list json)
| JObj (d : list (pystr * json)).

Definition pydict : Type := list (pystr * json).

Fixpoint dict_lookup (k : pystr) (d : pydict) : option json :=
  match d with
  | [] => None
  | (k', v) :: d' => if str_eqb k k' then Some v else dict_lookup k d'
  end.

Definition dict_get (d : pydict) (k : pystr) (default : json) : json :=
  match dict_lookup k d with
  | Some v => v
  | None => default
  end.

(** Truth value testing: [None], [False], zero, and empty strings, lists and
    dicts are false. *)
Definition float_is_zero (f : spec_float) : bool :=
  match f with
  | S754_zero _ => true
  | _ => false
  end.

Definition truthy (v : json) : bool :=
  match v with
  | JNull => false
  | JBool b => b
  | JInt z => negb (z =? 0)%Z
  | JFloat f => negb (float_is_zero f)
  | JStr s => match s with [] => false | _ => true end
  | JArr l => match l with [] => false | _ => true end
  | JObj d => match d with [] => false | _ => true end
  end.

Definition type_name (v : json) : pystr :=
  match v with
  | JNull => py "NoneType"
  | JBool _ => py "bool"
  | JInt _ => py "int"
  | JFloat _ => py "float"
  | JStr _ => py "str"
  | JArr _ => py "list"
  | JObj _ => py "dict"
  end.

(** [v == 'text'] for a string literal: only an equal [str] compares equal. *)
Definition eq_literal (v : json) (lit : pystr) : bool :=
  match v with
  | JStr s => str_eqb s lit
  | _ => false
  end.

(* ================================================================== *)
(** ** Exceptions *)

(** An exception (a subclass of [Exception]) with its class name and the
    text [str(e)] gives. *)
Record exn : Type := Exn { exn_class : pystr; exn_str : pystr }.

(** Python's result of an expression that may raise. *)
Definition result (A : Type) : Type := (exn + A)%type.

Definition ok {A : Type} (a : A) : result A := inr a.
Definition raise {A : Type} (e : exn) : result A := inl e.

Definition rbind {A B : Type} (r : result A) (k : A -> result B) : result B :=
  match r with
  | inl e => inl e
  | inr a => k a
  end.

Declare Scope result_scope.
Delimit Scope result_scope with result.
Notation "'let!' x ':=' r 'in' k" := (rbind r (fun x => k))
  (at level 10, x name, r at level 100, k at level 200) : result_scope.
Local Open Scope result_scope.

(** The messages are CPython 3.12's. *)
Definition AttributeError (v : json) (attr : pystr) : exn :=
  Exn (py "AttributeError")
      (py "'" ++ type_name v ++ py "' object has no attribute '" ++ attr ++ py "'").

Definition TypeError_not_subscriptable (v : json) : exn :=
  Exn (py "TypeError") (py "'" ++ type_name v ++ py "' object is not subscriptable").

Definition TypeError_not_iterable (v : json) : exn :=
  Exn (py "TypeError") (py "'" ++ type_name v ++ py "' object is not iterable").

Definition TypeError_expected_string (v : json) : exn :=
  Exn (py "TypeError")
      (py "expected string or bytes-like object, got '" ++ type_name v ++ py "'").

(** [d[-6:]] on a dict looks the slice up as a key. *)
Definition KeyError_slice : exn :=
  Exn (py "KeyError") (py "slice(-6, None, None)").

(** [obj.get(key, default)]: defined on dicts only. *)
Definition py_get (obj : json) (key : pystr) (default : json) : result json :=
  match obj with
  | JObj d => ok (dict_get d key default)
  | _ => raise (AttributeError obj (py "get"))
  end.

(** [obj[-6:]]. *)
Definition py_last6 (obj : json) : result json :=
  match obj with
  | JArr l => ok (JArr (slice_from (-6) l))
  | JStr s => ok (JStr (slice_from (-6) s))
  | JObj _ => raise KeyError_slice
  | _ => raise (TypeError_not_subscriptable obj)
  end.

(** The items [for msg in obj] runs over: the elements of a list, the
    characters of a string, the keys of a dict. *)
Definition py_iter (obj : json) : result (list json) :=
  match obj with
  | JArr l => ok l
  | JStr s => ok (map (fun c => JStr [c]) s)
  | JObj d => ok (map (fun kv => JStr (fst kv)) d)
  | _ => raise (TypeError_not_iterable obj)
  end.


(* ================================================================== *)
(** ** [re.sub(r'<[^>]+>', '', content)] *)

(** The length of the longest prefix without ['>']: what the greedy
    [[^>]+] consumes. *)
Fixpoint not_gt_run (s : pystr) : nat :=
  match s with
  | [] => 0
  | c :: t => if (c =? ch_gt)%N then 0 else S (not_gt_run t)
  end.

(** A match of [<[^>]+>] at the start of [s], as the number of characters
    it spans.  The class consumes the whole run; the run must be non-empty
    and be followed by a character, which is then ['>'].  Backtracking into
    the run cannot help: every character of the run is not ['>']. *)
Definition match_tag (s : pystr) : option nat :=
  match s with
  | [] => None
  | c :: t =>
      if (c =? ch_lt)%N then
        let n := not_gt_run t in
        match n, skipn n t with
        | S _, _ :: _ => Some (S (S n))
        | _, _ => None
        end
      else None
  end.

(** The scan of [re.sub] with the empty replacement: at a position outside
    the previous match, a match is dropped and the scan resumes after it; a
    character where nothing matches is copied.  [skip] counts the characters
    of the current match still to drop. *)
Fixpoint sub_tags (skip : nat) (s : pystr) : pystr :=
  match s with
  | [] => []
  | c :: t =>
      match skip with
      | S k => sub_tags k t
      | O =>
          match match_tag s with
          | Some n => sub_tags (pred n) t
          | None => c :: sub_tags 0 t
          end
      end
  end.

(** [re.sub] wants a string. *)
Definition re_sub_tags (content : json) : result pystr :=
  match content with
  | JStr s => ok (sub_tags 0 s)
  | _ => raise (TypeError_expected_string content)
  end.

(* ================================================================== *)
(** ** Requests, responses and the calls a view makes *)

(** [request.method] and [request.body]. *)
Record request : Type := Request { method : pystr; body : string }.

(** [JsonResponse(data, status=...)]; the status defaults to 200. *)
Record JsonResponse : Type := mkJsonResponse { data : pydict; status_code : Z }.

(** What [model.generate_content] returns: an object that is false (the
    [response and ...] test fails), or a response whose [text] property
    yields a string or raises. *)
Inductive gen_response : Type :=
| NoResponse
| Response (text : result pystr).

(** A view as the sequence of calls it makes to the outside: [json.loads],
    [GenerativeModel(model).generate_content(prompt)] and [print]. *)
Inductive prog (A : Type) : Type :=
| Ret (a : A)
| JsonLoads (body : string) (k : result json -> prog A)
| GenerateContent (model prompt : pystr) (k : result gen_response -> prog A)
| Print (line : pystr) (k : prog A).

Arguments Ret {A} a.
Arguments JsonLoads {A} body k.
Arguments GenerateContent {A} model prompt k.
Arguments Print {A} line k.

Fixpoint pbind {A B : Type} (p : prog A) (f : A -> prog B) : prog B :=
  match p with
  | Ret a => f a
  | JsonLoads b k => JsonLoads b (fun r => pbind (k r) f)
  | GenerateContent m q k => GenerateContent m q (fun r => pbind (k r) f)
  | Print l k => Print l (pbind k f)
  end.

(** The body of a [try]: a program that returns or raises. *)
Definition tryM (A : Type) : Type := prog (result A).

Definition tret {A : Type} (a : A) : tryM A := Ret (ok a).
Definition lift {A : Type} (r : result A) : tryM A := Ret r.

Definition tbind {A B : Type} (p : tryM A) (f : A -> tryM B) : tryM B :=
  pbind p (fun r => match r with
                    | inl e => Ret (inl e)
                    | inr a => f a
                    end).

Definition json_loads (b : string) : tryM json := JsonLoads b Ret.
Definition generate_content (model prompt : pystr) : tryM gen_response :=
  GenerateContent model prompt Ret.

(** [try: p except Exception as e: handler e]. *)
Definition try_except {A : Type} (p : tryM A) (handler : exn -> prog A) : prog A :=
  pbind p (fun r => match r with
                    | inl e => handler e
                    | inr a => Ret a
                    end).

Declare Scope try_scope.
Delimit Scope try_scope with try.
Notation "x <- p ;; k" := (tbind p (fun x => k))
  (at level 61, p at next level, right associativity) : try_scope.

(** The outside world a view runs in, and the calls it saw. *)
Record world : Type := World {
  w_json_loads : string -> result json;
  w_generate_content : pystr -> pystr -> result gen_response
}.

Inductive event : Type :=
| EvJsonLoads (body : string)
| EvGenerateContent (model prompt : pystr)
| EvPrint (line : pystr).

Fixpoint run {A : Type} (w : world) (p : prog A) : A * list event :=
  match p with
  | Ret a => (a, [])
  | JsonLoads b k =>
      let (a, tr) := run w (k (w_json_loads w b)) in (a, EvJsonLoads b :: tr)
  | GenerateContent m q k =>
      let (a, tr) := run w (k (w_generate_content w m q)) in
      (a, EvGenerateContent m q :: tr)
  | Print l k =>
      let (a, tr) := run w k in (a, EvPrint l :: tr)
  end.

Definition is_generate (ev : event) : bool :=
  match ev with
  | EvGenerateContent _ _ => true
  | _ => false
  end.

(* ================================================================== *)
(** ** The views *)

Section Views.

(** [repr] of the values that are not strings (floats, containers, the
    quoting of nested strings) is the interpreter's. *)
Variable py_repr : json -> pystr.

(** [str(v)], which is what an f-string field [{v}] formats: a string is
    itself, any other JSON value is its [repr]. *)
Definition py_str (v : json) : pystr :=
  match v with
  | JStr s => s
  | _ => py_repr v
  end.

Definition system_context_base : pystr :=
  py "You are MedAI, a compassionate and knowledgeable medical AI assistant. Your role is to provide evidence-based health information and guidance while maintaining appropriate medical boundaries.

IMPORTANT GUIDELINES:
1. Be empathetic, supportive, and use clear language
2. Provide general health information and education
3. Always emphasize that you're not a substitute for professional medical advice
4. Never provide specific medical diagnoses or prescriptions
5. Focus on self-care guidance and when to seek medical attention
6. If symptoms sound serious or life-threatening, strongly urge immediate medical attention
7. Structure responses clearly with sections like " ++ dq ++ py "Possible Causes" ++ dq ++ py ", " ++ dq ++ py "Self-Care Advice" ++ dq ++ py ", " ++ dq ++ py "When to See a Doctor" ++ dq ++ py "
8. Use HTML formatting for better readability (paragraphs, lists, bold text)

EMERGENCY SYMPTOMS that require immediate medical attention:
- Difficulty breathing or shortness of breath
- Chest pain or pressure
- Severe bleeding
- Loss of consciousness or severe confusion
- Severe allergic reactions
- Suspected stroke symptoms (FAST: Face drooping, Arm weakness, Speech difficulty, Time to call 911)
- Severe abdominal pain
- High fever (above 103°F/39.4°C) with other serious symptoms
".

(** The block [chat_api] adds for a true [intake_data]. *)
Definition patient_information (intake_data : json) : result pystr :=
  let! ageRange := py_get intake_data (py "ageRange") (JStr (py "Not specified")) in
  let! sex := py_get intake_data (py "sex") (JStr (py "Not specified")) in
  let! symptom := py_get intake_data (py "symptom") (JStr (py "Not specified")) in
  let! duration := py_get intake_data (py "duration") (JStr (py "Not specified")) in
  let! severity := py_get intake_data (py "severity") (JStr (py "Not specified")) in
  let! context := py_get intake_data (py "context") (JStr (py "None provided")) in
  ok (py "

PATIENT INFORMATION:
- Age Range: " ++ py_str ageRange ++ py "
- Sex: " ++ py_str sex ++ py "
- Main Symptom: " ++ py_str symptom ++ py "
- Duration: " ++ py_str duration ++ py "
- Severity (1-5): " ++ py_str severity ++ py "
- Additional Context: " ++ py_str context ++ py "
").

(** [clean_content[:500] + '...' if len(clean_content) > 500 else clean_content] *)
Definition limit_length (clean_content : pystr) : pystr :=
  if (500 <? Z.of_nat (List.length clean_content))%Z
  then slice_to 500 clean_content ++ py "..."
  else clean_content.

(** One turn of [for msg in recent_history]. *)
Definition history_step (system_context : pystr) (msg : json) : result pystr :=
  let! role := py_get msg (py "role") (JStr []) in
  let! content := py_get msg (py "content") (JStr []) in
  if eq_literal role (py "user") then
    ok (system_context ++ py "Patient: " ++ py_str content ++ py "
")
  else if eq_literal role (py "assistant") then
    let! clean_content := re_sub_tags content in
    let clean_content := limit_length clean_content in
    ok (system_context ++ py "You: " ++ clean_content ++ py "
")
  else ok system_context.

Fixpoint history_loop (system_context : pystr) (recent_history : list json)
  : result pystr :=
  match recent_history with
  | [] => ok system_context
  | msg :: rest =>
      let! system_context := history_step system_context msg in
      history_loop system_context rest
  end.

(** [full_prompt] of [chat_api], from the three fields of the body. *)
Definition chat_prompt (user_message conversation_history intake_data : json)
  : result pystr :=
  let system_context := system_context_base in
  let! system_context :=
    (if truthy intake_data then
       let! block := patient_information intake_data in
       ok (system_context ++ block)
     else ok system_context) in
  let! system_context :=
    (if truthy conversation_history then
       let system_context := system_context ++ py "

RECENT CONVERSATION:
" in
       let! recent_history := py_last6 conversation_history in
       let! items := py_iter recent_history in
       history_loop system_context items
     else ok system_context) in
  ok (system_context ++ py "

CURRENT PATIENT MESSAGE:
" ++ py_str user_message ++ py "

Please provide a helpful, medically-informed response. Use HTML formatting (paragraphs, bold text, lists) to make your response clear and easy to read. Structure your response with appropriate sections if needed.").

Definition gemini_model : pystr := py "gemini-2.5-flash".

Local Open Scope try_scope.

(** The [if response and response.text] at the end of both views. *)
Definition relay (response : gen_response) (no_response : pystr)
  : result JsonResponse :=
  match response with
  | NoResponse =>
      ok (mkJsonResponse [(py "error", JStr no_response);
                          (py "status", JStr (py "error"))] 500)
  | Response text =>
      let! t := text in
      if truthy (JStr t) then
        ok (mkJsonResponse [(py "response", JStr t);
                            (py "status", JStr (py "success"))] 200)
      else
        ok (mkJsonResponse [(py "error", JStr no_response);
                            (py "status", JStr (py "error"))] 500)
  end.

Definition chat_api_try (req : request) : tryM JsonResponse :=
  data <- json_loads (body req) ;;
  user_message <- lift (py_get data (py "message") (JStr [])) ;;
  conversation_history <- lift (py_get data (py "history") (JArr [])) ;;
  intake_data <- lift (py_get data (py "intake_data") (JObj [])) ;;
  if negb (truthy user_message) then
    tret (mkJsonResponse [(py "error", JStr (py "No message provided"))] 400)
  else
    full_prompt <- lift (chat_prompt user_message conversation_history intake_data) ;;
    response <- generate_content gemini_model full_prompt ;;
    lift (relay response (py "No response generated from AI")).

Definition chat_api_except (e : exn) : prog JsonResponse :=
  Print (py "Error in chat_api: " ++ exn_str e)
    (Ret (mkJsonResponse
            [(py "error", JStr (py "An error occurred while processing your request"));
             (py "details", JStr (exn_str e));
             (py "status", JStr (py "error"))] 500)).

Definition method_not_allowed : JsonResponse :=
  mkJsonResponse [(py "error", JStr (py "Method not allowed"))] 405.

Definition chat_api (req : request) : prog JsonResponse :=
  if str_eqb (method req) (py "POST") then
    try_except (chat_api_try req) chat_api_except
  else Ret method_not_allowed.

(** [prompt] of [initial_consultation_api]. *)
Definition consultation_prompt (intake_data : json) : result pystr :=
  let! ageRange := py_get intake_data (py "ageRange") (JStr (py "Not specified")) in
  let! sex := py_get intake_data (py "sex") (JStr (py "Not specified")) in
  let! symptom := py_get intake_data (py "symptom") (JStr (py "Not specified")) in
  let! duration := py_get intake_data (py "duration") (JStr (py "Not specified")) in
  let! severity := py_get intake_data (py "severity") (JStr (py "Not specified")) in
  let! context := py_get intake_data (py "context") (JStr (py "None provided")) in
  ok (py "You are MedAI, a compassionate medical AI assistant. A patient has just shared their symptoms with you. Provide a thorough initial assessment.

PATIENT INFORMATION:
- Age Range: " ++ py_str ageRange ++ py "
- Sex: " ++ py_str sex ++ py "
- Main Symptom: " ++ py_str symptom ++ py "
- Duration: " ++ py_str duration ++ py "
- Severity (1-5): " ++ py_str severity ++ py "
- Additional Context: " ++ py_str context ++ py "

INSTRUCTIONS:
1. Start with a warm, empathetic greeting
2. Provide an initial assessment with possible causes (use collapsible HTML sections)
3. Offer evidence-based self-care advice
4. If severity is 4-5, include urgent care warning
5. Explain when to see a doctor
6. End by asking if they have questions

FORMAT YOUR RESPONSE WITH HTML:
- Use <p> for paragraphs
- Use <strong> for emphasis
- Use <ul> and <li> for lists
- Create collapsible sections like this:

<div class=" ++ dq ++ py "collapsible-section active" ++ dq ++ py ">
    <div class=" ++ dq ++ py "collapsible-header" ++ dq ++ py " onclick=" ++ dq ++ py "toggleCollapsible(this)" ++ dq ++ py ">
        <span>🔍 Section Title</span>
        <span class=" ++ dq ++ py "collapsible-icon" ++ dq ++ py ">▼</span>
    </div>
    <div class=" ++ dq ++ py "collapsible-content" ++ dq ++ py ">
        <div class=" ++ dq ++ py "collapsible-body" ++ dq ++ py ">
            Content here with <strong>bold text</strong> and lists
        </div>
    </div>
</div>

Create sections for: Possible Causes, Self-Care Advice, When to See a Doctor, and (if severe) When to Seek Immediate Care.

Provide a comprehensive, caring, and medically-informed initial assessment.").

Definition initial_consultation_api_try (req : request) : tryM JsonResponse :=
  data <- json_loads (body req) ;;
  intake_data <- lift (py_get data (py "intake_data") (JObj [])) ;;
  if negb (truthy intake_data) then
    tret (mkJsonResponse [(py "error", JStr (py "No intake data provided"))] 400)
  else
    prompt <- lift (consultation_prompt intake_data) ;;
    response <- generate_content gemini_model prompt ;;
    lift (relay response (py "No response generated")).

Definition initial_consultation_api_except (e : exn) : prog JsonResponse :=
  Print (py "Error in initial_consultation_api: " ++ exn_str e)
    (Ret (mkJsonResponse
            [(py "error", JStr (py "An error occurred"));
             (py "details", JStr (exn_str e));
             (py "status", JStr (py "error"))] 500)).

Definition initial_consultation_api (req : request) : prog JsonResponse :=
  if str_eqb (method req) (py "POST") then
    try_except (initial_consultation_api_try req) initial_consultation_api_except
  else Ret method_not_allowed.

(** The two API routes of [medical_app/urls.py] and their views. *)
Inductive endpoint : Type :=
| ApiChat
| ApiInitialConsultation.

Definition endpoint_path (ep : endpoint) : pystr :=
  match ep with
  | ApiChat => py "api/chat/"
  | ApiInitialConsultation => py "api/initial-consultation/"
  end.

Definition view (ep : endpoint) : request -> prog JsonResponse :=
  match ep with
  | ApiChat => chat_api
  | ApiInitialConsultation => initial_consultation_api
  end.

Definition view_try (ep : endpoint) : request -> tryM JsonResponse :=
  match ep with
  | ApiChat => chat_api_try
  | ApiInitialConsultation => initial_consultation_api_try
  end.

Definition view_except (ep : endpoint) : exn -> prog JsonResponse :=
  match ep with
  | ApiChat => chat_api_except
  | ApiInitialConsultation => initial_consultation_api_except
  end.

(** What a view does with the parsed body before it calls the model: it
    raises, answers at once, or has the prompt to send. *)
Definition view_plan (ep : endpoint) (data : json) : result (JsonResponse + pystr) :=
  match ep with
  | ApiChat =>
      let! user_message := py_get data (py "message") (JStr []) in
      let! conversation_history := py_get data (py "history") (JArr []) in
      let! intake_data := py_get data (py "intake_data") (JObj []) in
      if negb (truthy user_message) then
        ok (inl (mkJsonResponse [(py "error", JStr (py "No message provided"))] 400))
      else
        let! full_prompt :=
          chat_prompt user_message conversation_history intake_data in
        ok (inr full_prompt)
  | ApiInitialConsultation =>
      let! intake_data := py_get data (py "intake_data") (JObj []) in
      if negb (truthy intake_data) then
        ok (inl (mkJsonResponse [(py "error", JStr (py "No intake data provided"))] 400))
      else
        let! prompt := consultation_prompt intake_data in
        ok (inr prompt)
  end.

Definition no_response_message (ep : endpoint) : pystr :=
  match ep with
  | ApiChat => py "No response generated from AI"
  | ApiInitialConsultation => py "No response generated"
  end.

(** What a history entry adds to the prompt: the speaker's label and the
    text after it, or nothing. *)
Definition history_line (msg : json) : result (option (pystr * pystr)) :=
  let! role := py_get msg (py "role") (JStr []) in
  let! content := py_get msg (py "content") (JStr []) in
  if eq_literal role (py "user") then ok (Some (py "Patient: ", py_str content))
  else if eq_literal role (py "assistant") then
    let! clean_content := re_sub_tags content in
    ok (Some (py "You: ", limit_length clean_content))
  else ok None.

Definition add_line (system_context : pystr) (line : option (pystr * pystr))
  : pystr :=
  match line with
  | Some (label, text) => system_context ++ label ++ text ++ py "
"
  | None => system_context
  end.

End Views.

(* ================================================================== *)
(** ** Vocabulary of the properties *)

(** The last [n] elements of a list, in their order. *)
Definition last_entries {A : Type} (n : nat) (l : list A) : list A :=
  rev (firstn n (rev l)).

(** No position of [s] starts a match of [<[^>]+>]. *)
Definition tag_free (s : pystr) : Prop :=
  forall i : nat, match_tag (skipn i s) = None.

Definition has_key (k : pystr) (r : JsonResponse) : bool :=
  match dict_lookup k (data r) with
  | Some _ => true
  | None => false
  end.

Definition keys (r : JsonResponse) : list pystr := map fst (data r).

(** The body of a successful relay and of the two handlers' [except]. *)
Definition success_response (t : pystr) : JsonResponse :=
  mkJsonResponse [(py "response", JStr t); (py "status", JStr (py "success"))] 200.

Definition error_message (ep : endpoint) : pystr :=
  match ep with
  | ApiChat => py "An error occurred while processing your request"
  | ApiInitialConsultation => py "An error occurred"
  end.

Definition exception_response (ep : endpoint) (e : exn) : JsonResponse :=
  mkJsonResponse [(py "error", JStr (error_message ep));
                  (py "details", JStr (exn_str e));
                  (py "status", JStr (py "error"))] 500.

Definition required_field (ep : endpoint) : pystr :=
  match ep with
  | ApiChat => py "message"
  | ApiInitialConsultation => py "intake_data"
  end.

(** The required field of a body, with the default [get] is given. *)
Definition required_value (ep : endpoint) (d : pydict) : json :=
  match ep with
  | ApiChat => dict_get d (py "message") (JStr [])
  | ApiInitialConsultation => dict_get d (py "intake_data") (JObj [])
  end.

(** The empty value of the required field's type. *)
Definition empty_value (ep : endpoint) : json :=
  match ep with
  | ApiChat => JStr []
  | ApiInitialConsultation => JObj []
  end.

Definition missing_field_response (ep : endpoint) : JsonResponse :=
  match ep with
  | ApiChat => mkJsonResponse [(py "error", JStr (py "No message provided"))] 400
  | ApiInitialConsultation =>
      mkJsonResponse [(py "error", JStr (py "No intake data provided"))] 400
  end.

Definition log_prefix (ep : endpoint) : pystr :=
  match ep with
  | ApiChat => py "Error in chat_api: "
  | ApiInitialConsultation => py "Error in initial_consultation_api: "
  end.

(** The three shapes a body takes. *)
Inductive body_shape : Type :=
| SuccessBody        (* response, status *)
| ErrorStatusBody    (* error, status (and details from the except clause) *)
| ErrorOnlyBody.     (* error alone *)

Definition shape_of (r : JsonResponse) : option body_shape :=
  if has_key (py "response") r && has_key (py "status") r
     && negb (has_key (py "error") r) then Some SuccessBody
  else if has_key (py "error") r && has_key (py "status") r
     && negb (has_key (py "response") r) then Some ErrorStatusBody
  else if has_key (py "error") r && negb (has_key (py "status") r)
     && negb (has_key (py "response") r) then Some ErrorOnlyBody
  else None.

(** The shapes with the statuses they come with. *)
Definition well_shaped (r : JsonResponse) : Prop :=
  (shape_of r = Some SuccessBody /\ status_code r = 200%Z) \/
  (shape_of r = Some ErrorStatusBody /\ status_code r = 500%Z) \/
  (shape_of r = Some ErrorOnlyBody /\
   (status_code r = 400%Z \/ status_code r = 405%Z)).

(* ================================================================== *)
(** ** Sample inputs *)

(** A [repr] for the sample runs, which format strings only. *)
Definition sample_repr (v : json) : pystr :=
  match v with
  | JNull => py "None"
  | JBool true => py "True"
  | JBool false => py "False"
  | _ => py "..."
  end.

Definition entry (role content : pystr) : json :=
  JObj [(py "role", JStr role); (py "content", JStr content)].

Definition letters (n : nat) : pystr := repeat 97%N n.

Definition post_request (b : string) : request := Request (py "POST") b.
Definition get_request (b : string) : request := Request (py "GET") b.

(** Request bodies: [{}], [{"message": "I have a headache"}],
    [{"message": ""}], [{"intake_data": {}}],
    [{"intake_data": {"symptom": "cough"}}] and the cut-off [{]. *)
Definition quoted (s : string) : string :=
  String (ascii_of_nat 34) (s ++ String (ascii_of_nat 34) EmptyString)%string.

Definition body_no_fields : string := "{}".
Definition body_message : string :=
  ("{" ++ quoted "message" ++ ": " ++ quoted "I have a headache" ++ "}")%string.
Definition body_empty_message : string :=
  ("{" ++ quoted "message" ++ ": " ++ quoted "" ++ "}")%string.
Definition body_empty_intake : string :=
  ("{" ++ quoted "intake_data" ++ ": {}}")%string.
Definition body_intake : string :=
  ("{" ++ quoted "intake_data" ++ ": {" ++ quoted "symptom" ++ ": "
       ++ quoted "cough" ++ "}}")%string.
Definition body_cut_off : string := "{".

(** [json.loads] on the sample bodies. *)
Definition sample_loads (b : string) : result json :=
  if String.eqb b body_no_fields then ok (JObj [])
  else if String.eqb b body_message then
    ok (JObj [(py "message", JStr (py "I have a headache"))])
  else if String.eqb b body_empty_message then
    ok (JObj [(py "message", JStr [])])
  else if String.eqb b body_empty_intake then
    ok (JObj [(py "intake_data", JObj [])])
  else if String.eqb b body_intake then
    ok (JObj [(py "intake_data", JObj [(py "symptom", JStr (py "cough"))])])
  else
    raise (Exn (py "JSONDecodeError")
               (py "Expecting property name enclosed in double quotes: line 1 column 2 (char 1)")).

(** A model that answers [t], and one whose call raises. *)
Definition answering (t : pystr) : world :=
  World sample_loads (fun _ _ => ok (Response (ok t))).

Definition quota_error : exn :=
  Exn (py "ResourceExhausted") (py "429 Quota exceeded").

Definition failing : world :=
  World sample_loads (fun _ _ => raise quota_error).

(** A world with a mocked parser and a mocked model. *)
Definition mock (v : result json) (r : result gen_response) : world :=
  World (fun _ => v) (fun _ _ => r).

(** More bodies: [[]], [{"message": "hi", "history": "abc"}],
    [{"intake_data": "flu"}], [{"intake_data": {"pet": "cat"}}] and
    [{"message": true}]. *)
Definition body_list : string := "[]".
Definition body_history_string : string :=
  ("{" ++ quoted "message" ++ ": " ++ quoted "hi" ++ ", "
       ++ quoted "history" ++ ": " ++ quoted "abc" ++ "}")%string.
Definition body_intake_string : string :=
  ("{" ++ quoted "intake_data" ++ ": " ++ quoted "flu" ++ "}")%string.
Definition body_intake_pet : string :=
  ("{" ++ quoted "intake_data" ++ ": {" ++ quoted "pet" ++ ": "
       ++ quoted "cat" ++ "}}")%string.
Definition body_message_true : string :=
  ("{" ++ quoted "message" ++ ": true}")%string.

(** A chat body with the message "hi" and a history of eight user
    entries "m1" to "m8", and what [json.loads] makes of it. *)
Definition entry_text (role content : string) : string :=
  ("{" ++ quoted "role" ++ ": " ++ quoted role ++ ", "
       ++ quoted "content" ++ ": " ++ quoted content ++ "}")%string.

Definition eight_contents : list string :=
  ["m1"; "m2"; "m3"; "m4"; "m5"; "m6"; "m7"; "m8"]%string.

Definition body_eight : string :=
  ("{" ++ quoted "message" ++ ": " ++ quoted "hi" ++ ", "
       ++ quoted "history" ++ ": ["
       ++ String.concat ", " (map (entry_text "user") eight_contents)
       ++ "]}")%string.

Definition eight_entries : list json :=
  map (fun c => entry (py "user") (py c)) eight_contents.

Definition parsed_eight : pydict :=
  [(py "message", JStr (py "hi")); (py "history", JArr eight_entries)].

(** The prompt a successful [result] holds. *)
Definition prompt_of (r : result pystr) : pystr :=
  match r with
  | inl _ => []
  | inr p => p
  end.

(* ================================================================== *)
(** ** The pieces of the chat prompt *)

Section PromptPieces.

Variable py_repr : json -> pystr.

(** [system_context] after the [if intake_data:] block. *)
Definition intake_context (intake_data : json) : result pystr :=
  if truthy intake_data then
    let! block := patient_information py_repr intake_data in
    ok (system_context_base ++ block)
  else ok system_context_base.

Definition history_header : pystr := py "

RECENT CONVERSATION:
".

(** [system_context] after the [if conversation_history:] block. *)
Definition history_context (system_context : pystr) (conversation_history : json)
  : result pystr :=
  if truthy conversation_history then
    let! recent_history := py_last6 conversation_history in
    let! items := py_iter recent_history in
    history_loop py_repr (system_context ++ history_header) items
  else ok system_context.

(** What [full_prompt] puts after [system_context]. *)
Definition closing (user_message : json) : pystr :=
  py "

CURRENT PATIENT MESSAGE:
" ++ py_str py_repr user_message ++ py "

Please provide a helpful, medically-informed response. Use HTML formatting (paragraphs, bold text, lists) to make your response clear and easy to read. Structure your response with appropriate sections if needed.".

(** The lines a list of history entries adds, one after the other. *)
Fixpoint history_block (items : list json) : result pystr :=
  match items with
  | [] => ok []
  | msg :: rest =>
      let! line := history_line py_repr msg in
      let! block := history_block rest in
      ok (add_line [] line ++ block)
  end.

(** The six intake fields a prompt reads, with their defaults. *)
Definition intake_fields : list (pystr * pystr) :=
  [(py "ageRange", py "Not specified"); (py "sex", py "Not specified");
   (py "symptom", py "Not specified"); (py "duration", py "Not specified");
   (py "severity", py "Not specified"); (py "context", py "None provided")].

Definition read_fields (d : pydict) (fields : list (pystr * pystr)) : list json :=
  map (fun kv => dict_get d (fst kv) (JStr (snd kv))) fields.

End PromptPieces.

(** The three keys [chat_api] reads of the body, the one
    [initial_consultation_api] reads. *)
Definition body_fields (ep : endpoint) : list pystr :=
  match ep with
  | ApiChat => [py "message"; py "history"; py "intake_data"]
  | ApiInitialConsultation => [py "intake_data"]
  end.

Definition is_object (v : json) : bool :=
  match v with
  | JObj _ => true
  | _ => false
  end.

Definition is_list (v : json) : bool :=
  match v with
  | JArr _ => true
  | _ => false
  end.

Definition is_string (v : json) : bool :=
  match v with
  | JStr _ => true
  | _ => false
  end.

(** An entry the loop cannot process: it is not an object, or its role is
    'assistant' and its content is not a string. *)
Definition malformed_entry (msg : json) : bool :=
  match msg with
  | JObj d =>
      eq_literal (dict_get d (py "role") (JStr [])) (py "assistant")
      && negb (is_string (dict_get d (py "content") (JStr [])))
  | _ => true
  end.

(** An entry the loop passes over: an object whose role is neither 'user'
    nor 'assistant'. *)
Definition ignored_entry (msg : json) : bool :=
  match msg with
  | JObj d =>
      negb (eq_literal (dict_get d (py "role") (JStr [])) (py "user"))
      && negb (eq_literal (dict_get d (py "role") (JStr [])) (py "assistant"))
  | _ => false
  end.

(** ** What removing the tags means *)

(** [s] begins with a tag: ['<'], one or more characters other than ['>'],
    and ['>']. *)
Definition starts_with_tag (s : pystr) : Prop :=
  exists run rest, s = ch_lt :: run ++ ch_gt :: rest /\ run <> [] /\ ~ In ch_gt run.

(** [s] holds a tag somewhere. *)
Definition holds_tag (s : pystr) : Prop :=
  exists pre run rest,
    s = pre ++ ch_lt :: run ++ ch_gt :: rest /\ run <> [] /\ ~ In ch_gt run.

(** [removes_tags s out]: [out] is [s] read from the left with every tag
    met dropped whole and every other character kept. *)
Inductive removes_tags : pystr -> pystr -> Prop :=
| removes_end : removes_tags [] []
| removes_tag (run rest out : pystr) :
    run <> [] -> ~ In ch_gt run ->
    removes_tags rest out ->
    removes_tags (ch_lt :: run ++ ch_gt :: rest) out
| removes_keep (c : pychar) (t out : pystr) :
    ~ starts_with_tag (c :: t) ->
    removes_tags t out ->
    removes_tags (c :: t) (c :: out).

(** The response of the [else] of [if response and response.text]. *)
Definition no_response_response (ep : endpoint) : JsonResponse :=
  mkJsonResponse [(py "error", JStr (no_response_message ep));
                  (py "status", JStr (py "error"))] 500.

(** The traces a view can leave: nothing; the parse; the parse and one call
    of the model; either of the last two followed by the [print] of the
    [except] clause. *)
Inductive trace_shape (b : string) : list event -> Prop :=
| TraceNone : trace_shape b []
| TraceParse : trace_shape b [EvJsonLoads b]
| TraceParseFailed (l : pystr) : trace_shape b [EvJsonLoads b; EvPrint l]
| TraceCall (p : pystr) :
    trace_shape b [EvJsonLoads b; EvGenerateContent gemini_model p]
| TraceCallFailed (p l : pystr) :
    trace_shape b [EvJsonLoads b; EvGenerateContent gemini_model p; EvPrint l].

Definition has_print (tr : list event) : bool :=
  existsb (fun ev => match ev with EvPrint _ => true | _ => false end) tr.

(* ================================================================== *)
(** * Properties *)

Arguments py : simpl never.
Arguments letters : simpl never.

(** ** Strings and dictionaries *)

Lemma str_eqb_refl (s : pystr) : str_eqb s s = true.
Proof.
  induction s as [|c s IH]; simpl; [reflexivity|].
  now rewrite N.eqb_refl.
Qed.

Lemma str_eqb_eq (a b : pystr) : str_eqb a b = true <-> a = b.
Proof.
  split; [|intros ->; apply str_eqb_refl].
  revert b; induction a as [|x a IH]; intros [|y b]; simpl; try easy.
  rewrite andb_true_iff, N.eqb_eq. intros [-> H]. now rewrite (IH _ H).
Qed.

Lemma str_eqb_neq (a b : pystr) : str_eqb a b = false <-> a <> b.
Proof.
  rewrite <- str_eqb_eq. destruct (str_eqb a b); split; congruence.
Qed.

(** ** Running a program *)

Lemma run_pbind {A B : Type} (w : world) (p : prog A) (f : A -> prog B) :
  run w (pbind p f) =
  (fst (run w (f (fst (run w p)))), snd (run w p) ++ snd (run w (f (fst (run w p))))).
Proof.
  induction p as [a|b k IH|m q k IH|l k IH]; simpl.
  - now destruct (run w (f a)).
  - rewrite IH. now destruct (run w (k (w_json_loads w b))).
  - rewrite IH. now destruct (run w (k (w_generate_content w m q))).
  - rewrite IH. now destruct (run w k).
Qed.

(** The literals stay folded in the proofs below. *)
Opaque py.
Ltac run_simpl :=
  cbn [tbind pbind try_except lift tret ok raise json_loads generate_content
       run py_get rbind fst snd negb app].

Section Properties.
Variable py_repr : json -> pystr.

Lemma view_unfold (ep : endpoint) (req : request) :
  view py_repr ep req =
  if str_eqb (method req) (py "POST")
  then try_except (view_try py_repr ep req) (view_except ep)
  else Ret method_not_allowed.
Proof. destruct ep; reflexivity. Qed.

Lemma run_view_except (w : world) (ep : endpoint) (e : exn) :
  run w (view_except ep e) =
  (exception_response ep e, [EvPrint (log_prefix ep ++ exn_str e)]).
Proof. destruct ep; reflexivity. Qed.

(** A view on a POST request: the [try] body's response, or the [except]
    clause's for the exception the body raised. *)
Lemma run_view_post (w : world) (ep : endpoint) (req : request) :
  method req = py "POST" ->
  run w (view py_repr ep req) =
  match fst (run w (view_try py_repr ep req)) with
  | inl e => (exception_response ep e,
              snd (run w (view_try py_repr ep req))
                ++ [EvPrint (log_prefix ep ++ exn_str e)])
  | inr r => (r, snd (run w (view_try py_repr ep req)))
  end.
Proof.
  intros Hm. rewrite view_unfold, Hm, str_eqb_refl.
  unfold try_except. rewrite run_pbind.
  destruct (fst (run w (view_try py_repr ep req))) as [e|r].
  - now rewrite run_view_except.
  - simpl. now rewrite app_nil_r.
Qed.

Lemma run_view_try_falsy (w : world) (ep : endpoint) (req : request) (d : pydict) :
  w_json_loads w (body req) = ok (JObj d) ->
  truthy (required_value ep d) = false ->
  run w (view_try py_repr ep req) =
  (ok (missing_field_response ep), [EvJsonLoads (body req)]).
Proof.
  intros Hj Hf.
  destruct ep; cbn [view_try required_value] in *;
    unfold chat_api_try, initial_consultation_api_try;
    run_simpl; rewrite Hj; run_simpl; rewrite Hf; reflexivity.
Qed.


(** The two-call normal form of a [try] body: parse, plan, and at most one
    call to the model, whose answer [relay] turns into the response. *)
Lemma run_view_try (w : world) (ep : endpoint) (req : request) :
  run w (view_try py_repr ep req) =
  match w_json_loads w (body req) with
  | inl e => (raise e, [EvJsonLoads (body req)])
  | inr data =>
      match view_plan py_repr ep data with
      | inl e => (raise e, [EvJsonLoads (body req)])
      | inr (inl r) => (ok r, [EvJsonLoads (body req)])
      | inr (inr prompt) =>
          (let! response := w_generate_content w gemini_model prompt in
           relay response (no_response_message ep),
           [EvJsonLoads (body req); EvGenerateContent gemini_model prompt])
      end
  end.
Proof.
  destruct ep; cbn [view_try view_plan no_response_message];
    unfold chat_api_try, initial_consultation_api_try; run_simpl;
    destruct (w_json_loads w (body req)) as [e|data]; try reflexivity;
    run_simpl.
  - destruct data; run_simpl; try reflexivity.
    destruct (truthy (dict_get d (py "message") (JStr []))); run_simpl;
      [|reflexivity].
    destruct (chat_prompt _ _ _ _) as [e|prompt]; run_simpl; [reflexivity|].
    now destruct (w_generate_content w gemini_model prompt).
  - destruct data; run_simpl; try reflexivity.
    destruct (truthy (dict_get d (py "intake_data") (JObj []))); run_simpl;
      [|reflexivity].
    destruct (consultation_prompt _ _) as [e|prompt]; run_simpl; [reflexivity|].
    now destruct (w_generate_content w gemini_model prompt).
Qed.



Lemma run_view_not_post (ep : endpoint) (req : request) :
  str_eqb (method req) (py "POST") = false ->
  view py_repr ep req = Ret method_not_allowed.
Proof. intros H. now rewrite view_unfold, H. Qed.

Lemma run_view_falsy (w : world) (ep : endpoint) (req : request) (d : pydict) :
  method req = py "POST" ->
  w_json_loads w (body req) = ok (JObj d) ->
  truthy (required_value ep d) = false ->
  run w (view py_repr ep req) =
  (missing_field_response ep, [EvJsonLoads (body req)]).
Proof.
  intros Hm Hj Hf. rewrite (run_view_post w ep req Hm).
  now rewrite (run_view_try_falsy w ep req Hj Hf).
Qed.

Lemma missing_field_response_fields (ep : endpoint) :
  status_code (missing_field_response ep) = 400%Z /\
  has_key (py "error") (missing_field_response ep) = true /\
  keys (missing_field_response ep) = [py "error"].
Proof. destruct ep; repeat split. Qed.

(** C5: a request whose method is not POST gets the 405 response with the
    JSON body [{'error': 'Method not allowed'}] from either view, and the
    view is the bare return of that response: it makes no call to
    [json.loads] or to the model, whatever the body is. *)
Theorem non_post_is_405 (w : world) (ep : endpoint) (req : request) :
  method req <> py "POST" ->
  view py_repr ep req = Ret method_not_allowed /\
  run w (view py_repr ep req) = (method_not_allowed, []) /\
  status_code method_not_allowed = 405%Z /\
  data method_not_allowed = [(py "error", JStr (py "Method not allowed"))].
Proof.
  intros Hm. apply str_eqb_neq in Hm.
  rewrite (run_view_not_post ep req Hm). now repeat split.
Qed.

(** C4: a POST request whose body is a JSON object without the required
    field ('message' for the chat view, 'intake_data' for the initial
    consultation view) gets HTTP 400 with a body that has an 'error' field,
    and the only call made is [json.loads]: the model is not called. *)
Theorem missing_field_is_400
  (w : world) (ep : endpoint) (req : request) (d : pydict) :
  method req = py "POST" ->
  w_json_loads w (body req) = ok (JObj d) ->
  dict_lookup (required_field ep) d = None ->
  run w (view py_repr ep req) =
    (missing_field_response ep, [EvJsonLoads (body req)]) /\
  status_code (missing_field_response ep) = 400%Z /\
  has_key (py "error") (missing_field_response ep) = true /\
  existsb is_generate (snd (run w (view py_repr ep req))) = false.
Proof.
  intros Hm Hj Hl.
  assert (Hf : truthy (required_value ep d) = false).
  { destruct ep; cbn [required_value required_field] in *;
      unfold dict_get; now rewrite Hl. }
  rewrite (run_view_falsy w ep req Hm Hj Hf).
  destruct (missing_field_response_fields ep) as (H1 & H2 & _).
  now repeat split.
Qed.

(** C10: a POST request whose body has the required field with an empty
    value (the empty string for 'message', the empty object for
    'intake_data') gets the same HTTP 400 response with an 'error' field as
    a request without the field; the model is not called. *)
Theorem empty_field_is_400
  (w : world) (ep : endpoint) (req : request) (d : pydict) :
  method req = py "POST" ->
  w_json_loads w (body req) = ok (JObj d) ->
  dict_lookup (required_field ep) d = Some (empty_value ep) ->
  run w (view py_repr ep req) =
    (missing_field_response ep, [EvJsonLoads (body req)]) /\
  status_code (missing_field_response ep) = 400%Z /\
  has_key (py "error") (missing_field_response ep) = true.
Proof.
  intros Hm Hj Hl.
  assert (Hf : truthy (required_value ep d) = false).
  { destruct ep; cbn [required_value required_field empty_value] in *;
      unfold dict_get; now rewrite Hl. }
  rewrite (run_view_falsy w ep req Hm Hj Hf).
  destruct (missing_field_response_fields ep) as (H1 & H2 & _).
  now repeat split.
Qed.



Lemma exception_response_fields (ep : endpoint) (e : exn) :
  status_code (exception_response ep e) = 500%Z /\
  dict_lookup (py "status") (data (exception_response ep e)) = Some (JStr (py "error")) /\
  dict_lookup (py "details") (data (exception_response ep e)) = Some (JStr (exn_str e)) /\
  keys (exception_response ep e) = [py "error"; py "details"; py "status"].
Proof. repeat split. Qed.

(** When the model was called, it was called once, with the planned
    prompt, and the response is what [relay] or the [except] clause makes of
    its answer. *)
Lemma run_view_called
  (w : world) (ep : endpoint) (req : request) (m p : pystr) :
  In (EvGenerateContent m p) (snd (run w (view py_repr ep req))) ->
  m = gemini_model /\
  fst (run w (view py_repr ep req)) =
  match (let! response := w_generate_content w m p in
         relay response (no_response_message ep)) with
  | inl e => exception_response ep e
  | inr r => r
  end.
Proof.
  destruct (str_eqb (method req) (py "POST")) eqn:Hm.
  2:{ rewrite (run_view_not_post ep req Hm). intros []. }
  apply str_eqb_eq in Hm. rewrite (run_view_post w ep req Hm), run_view_try.
  destruct (w_json_loads w (body req)) as [e|d]; cbn [fst snd raise].
  { cbn. intros [H|[H|[]]]; discriminate. }
  destruct (view_plan py_repr ep d) as [e|[r|prompt]]; cbn [fst snd raise ok].
  { cbn. intros [H|[H|[]]]; discriminate. }
  { cbn. intros [H|[]]; discriminate. }
  set (res := rbind _ _). intros Hin.
  assert (Hmp : m = gemini_model /\ p = prompt).
  { destruct res; cbn in Hin; destruct Hin as [H|[H|H]];
      try discriminate; try (now inversion H); try (now destruct H).
    all: destruct H as [H|[]]; discriminate. }
  destruct Hmp as [-> ->]. split; [reflexivity|].
  subst res. now destruct (rbind _ _).
Qed.

(** C6: when handling a request reaches the call to the model (as only a
    POST request with a well-formed body does) and the call returns a
    response with the non-empty text [t], either view answers HTTP 200 with
    the body [{'response': t, 'status': 'success'}]. *)
Theorem api_success_is_relayed
  (w : world) (ep : endpoint) (req : request) (m p t : pystr) :
  In (EvGenerateContent m p) (snd (run w (view py_repr ep req))) ->
  w_generate_content w m p = ok (Response (ok t)) ->
  t <> [] ->
  fst (run w (view py_repr ep req)) = success_response t /\
  status_code (success_response t) = 200%Z /\
  data (success_response t) =
    [(py "response", JStr t); (py "status", JStr (py "success"))].
Proof.
  intros Hin Hgen Ht.
  destruct (run_view_called w ep req m p Hin) as [_ ->].
  rewrite Hgen. destruct t as [|c t]; [congruence|]. now repeat split.
Qed.

(** C7: on a POST request, an exception [e] raised in the [try] body is
    caught by the view's [except] clause, which answers HTTP 500 with
    'status' 'error' and 'details' [str(e)]; so it is for a body
    [json.loads] rejects and for a call to the model that raises. *)
Theorem exception_is_500 (w : world) (ep : endpoint) (req : request) :
  method req = py "POST" ->
  (forall e, fst (run w (view_try py_repr ep req)) = raise e ->
     fst (run w (view py_repr ep req)) = exception_response ep e) /\
  (forall e, w_json_loads w (body req) = raise e ->
     fst (run w (view py_repr ep req)) = exception_response ep e) /\
  (forall e m p,
     In (EvGenerateContent m p) (snd (run w (view py_repr ep req))) ->
     w_generate_content w m p = raise e ->
     fst (run w (view py_repr ep req)) = exception_response ep e) /\
  (forall e,
     status_code (exception_response ep e) = 500%Z /\
     dict_lookup (py "status") (data (exception_response ep e))
       = Some (JStr (py "error")) /\
     dict_lookup (py "details") (data (exception_response ep e))
       = Some (JStr (exn_str e))).
Proof.
  intros Hm. repeat split.
  - intros e He. rewrite (run_view_post w ep req Hm). unfold raise in He.
    now rewrite He.
  - intros e He. rewrite (run_view_post w ep req Hm), run_view_try, He.
    reflexivity.
  - intros e m p Hin He.
    destruct (run_view_called w ep req m p Hin) as [_ ->]. now rewrite He.
Qed.

Lemma relay_shape (ep : endpoint) (response : gen_response) (r : JsonResponse) :
  relay response (no_response_message ep) = ok r ->
  (shape_of r = Some SuccessBody /\ status_code r = 200%Z) \/
  (shape_of r = Some ErrorStatusBody /\ status_code r = 500%Z).
Proof.
  destruct response as [|[e|t]]; cbn [relay rbind].
  - intros [= <-]. right. now split.
  - discriminate.
  - destruct (truthy (JStr t)); intros [= <-]; [left|right]; now split.
Qed.

Lemma view_plan_shape (ep : endpoint) (d : json) (r : JsonResponse) :
  view_plan py_repr ep d = ok (inl r) ->
  shape_of r = Some ErrorOnlyBody /\ status_code r = 400%Z.
Proof.
  destruct ep; cbn [view_plan].
  - destruct (py_get d (py "message") (JStr [])) as [e|um]; [discriminate|].
    destruct (py_get d (py "history") (JArr [])) as [e|h]; [discriminate|].
    destruct (py_get d (py "intake_data") (JObj [])) as [e|i]; [discriminate|].
    cbn [rbind]. destruct (negb (truthy um)).
    + intros [= <-]. now split.
    + destruct (chat_prompt _ _ _ _); discriminate.
  - destruct (py_get d (py "intake_data") (JObj [])) as [e|i]; [discriminate|].
    cbn [rbind]. destruct (negb (truthy i)).
    + intros [= <-]. now split.
    + destruct (consultation_prompt _ _); discriminate.
Qed.

(** C3, as the code has it: a body of either view is a success body
    ('response' and 'status', HTTP 200), an error body with 'status'
    (HTTP 500), or an error body with 'error' and no 'status' (HTTP 400 and
    405). *)
Theorem body_shapes (w : world) (ep : endpoint) (req : request) :
  well_shaped (fst (run w (view py_repr ep req))).
Proof.
  unfold well_shaped.
  destruct (str_eqb (method req) (py "POST")) eqn:Hm.
  2:{ rewrite (run_view_not_post ep req Hm).
      right; right. split; [reflexivity|now right]. }
  apply str_eqb_eq in Hm. rewrite (run_view_post w ep req Hm), run_view_try.
  assert (Hexc : forall e,
    shape_of (exception_response ep e) = Some ErrorStatusBody /\
    status_code (exception_response ep e) = 500%Z).
  { intros e. now split. }
  destruct (w_json_loads w (body req)) as [e|d]; cbn [fst snd raise].
  { right; left. apply Hexc. }
  destruct (view_plan py_repr ep d) as [e|[r|prompt]] eqn:Hplan;
    cbn [fst snd raise ok].
  { right; left. apply Hexc. }
  { right; right. destruct (view_plan_shape _ _ Hplan) as [H1 H2].
    split; [assumption|now left]. }
  destruct (w_generate_content w gemini_model prompt) as [e|response];
    cbn [rbind fst].
  { right; left. apply Hexc. }
  destruct (relay response (no_response_message ep)) as [e|r] eqn:Hrelay;
    cbn [fst].
  { right; left. apply Hexc. }
  destruct (relay_shape _ _ Hrelay) as [H|H]; [left|right; left]; exact H.
Qed.


(** ** Slices *)

Lemma adjust_index_last (n : nat) (len : nat) :
  adjust_index (- Z.of_nat (S n)) len = len - S n.
Proof. unfold adjust_index. destruct (Z.ltb_spec (- Z.of_nat (S n)) 0); lia. Qed.

Lemma slice_from_last_entries {A : Type} (l : list A) :
  slice_from (-6) l = last_entries 6 l.
Proof.
  unfold slice_from, last_entries.
  change (-6)%Z with (- Z.of_nat 6)%Z. rewrite adjust_index_last.
  now rewrite firstn_rev, rev_involutive.
Qed.

Lemma last_entries_length {A : Type} (n : nat) (l : list A) :
  List.length (last_entries n l) = Nat.min n (List.length l).
Proof.
  unfold last_entries. now rewrite length_rev, length_firstn, length_rev.
Qed.

Lemma last_entries_suffix {A : Type} (n : nat) (l : list A) :
  l = firstn (List.length l - n) l ++ last_entries n l.
Proof.
  unfold last_entries. rewrite firstn_rev, rev_involutive.
  symmetry. apply firstn_skipn.
Qed.

Lemma last_entries_short {A : Type} (n : nat) (l : list A) :
  List.length l <= n -> last_entries n l = l.
Proof.
  intros H. unfold last_entries.
  rewrite firstn_all2 by (rewrite length_rev; lia). apply rev_involutive.
Qed.

Lemma last_entries_idem {A : Type} (n : nat) (l : list A) :
  last_entries n (last_entries n l) = last_entries n l.
Proof. apply last_entries_short. rewrite last_entries_length. lia. Qed.

Lemma last_entries_nil_iff {A : Type} (l : list A) :
  last_entries 6 l = [] <-> l = [].
Proof.
  split; [|now intros ->].
  intros H. apply (f_equal (@List.length A)) in H.
  rewrite last_entries_length in H. destruct l; [reflexivity|simpl in H; lia].
Qed.

(** ** The history in the chat prompt *)

Lemma py_last6_list (h : list json) :
  py_last6 (JArr h) = ok (JArr (last_entries 6 h)).
Proof. cbn [py_last6]. now rewrite slice_from_last_entries. Qed.

Lemma truthy_last_entries (h : list json) :
  truthy (JArr (last_entries 6 h)) = truthy (JArr h).
Proof.
  destruct h as [|x h]; [reflexivity|].
  destruct (last_entries 6 (x :: h)) eqn:E; [|reflexivity].
  apply (proj1 (last_entries_nil_iff _)) in E. discriminate E.
Qed.

Lemma chat_prompt_last_entries (um idata : json) (h : list json) :
  chat_prompt py_repr um (JArr h) idata =
  chat_prompt py_repr um (JArr (last_entries 6 h)) idata.
Proof.
  unfold chat_prompt.
  now rewrite truthy_last_entries, !py_last6_list, last_entries_idem.
Qed.

Lemma dict_get_history (d : pydict) (v : json) :
  dict_get ((py "history", v) :: d) (py "message") (JStr [])
    = dict_get d (py "message") (JStr []) /\
  dict_get ((py "history", v) :: d) (py "history") (JArr []) = v /\
  dict_get ((py "history", v) :: d) (py "intake_data") (JObj [])
    = dict_get d (py "intake_data") (JObj []).
Proof. repeat split. Qed.

Lemma view_plan_last_entries (d : pydict) (h : list json) :
  view_plan py_repr ApiChat (JObj ((py "history", JArr h) :: d)) =
  view_plan py_repr ApiChat (JObj ((py "history", JArr (last_entries 6 h)) :: d)).
Proof.
  cbn [view_plan py_get rbind ok].
  destruct (dict_get_history d (JArr h)) as (-> & -> & ->).
  destruct (dict_get_history d (JArr (last_entries 6 h))) as (-> & -> & ->).
  now rewrite chat_prompt_last_entries.
Qed.


(** ** The regular expression *)

Lemma sub_tags_skip (k : nat) (s : pystr) :
  sub_tags k s = sub_tags 0 (skipn k s).
Proof.
  revert k; induction s as [|c t IH]; intros [|k]; try reflexivity.
  cbn [sub_tags skipn]. apply IH.
Qed.

(** The two equations of the scan: a match is dropped whole, any other
    character is kept. *)
Lemma sub_tags_match (s : pystr) (n : nat) :
  match_tag s = Some n -> sub_tags 0 s = sub_tags 0 (skipn n s).
Proof.
  destruct s as [|c t]; [discriminate|]. intros H.
  cbn [sub_tags]. rewrite H.
  destruct n as [|n]; [|now rewrite sub_tags_skip].
  unfold match_tag in H. destruct (c =? ch_lt)%N; [|discriminate].
  destruct (not_gt_run t); [discriminate|]. now destruct (skipn _ t).
Qed.

Lemma sub_tags_no_match (c : pychar) (t : pystr) :
  match_tag (c :: t) = None -> sub_tags 0 (c :: t) = c :: sub_tags 0 t.
Proof. intros H. cbn [sub_tags]. now rewrite H. Qed.

Lemma match_tag_length (s : pystr) (n : nat) :
  match_tag s = Some n -> 3 <= n <= List.length s.
Proof.
  destruct s as [|c t]; [discriminate|]. unfold match_tag.
  destruct (c =? ch_lt)%N; [|discriminate].
  destruct (not_gt_run t) as [|k] eqn:Ek; [discriminate|].
  destruct (skipn (S k) t) as [|g r] eqn:Es; [discriminate|].
  intros [= <-]. split; [lia|].
  assert (H := length_skipn (S k) t). rewrite Es in H. simpl in *. lia.
Qed.

(** What follows the run of [[^>]] is the end of the string or a ['>']. *)
Lemma skipn_not_gt_run (s : pystr) :
  skipn (not_gt_run s) s = [] \/
  exists r, skipn (not_gt_run s) s = ch_gt :: r.
Proof.
  induction s as [|c t IH]; [now left|]. cbn [not_gt_run].
  destruct (N.eqb_spec c ch_gt) as [->|Hc]; [right; now exists t|exact IH].
Qed.

(** A match is ['<'], a non-empty run without ['>'], and ['>']. *)
Lemma match_tag_spec (s : pystr) (n : nat) :
  match_tag s = Some n ->
  exists run rest,
    s = ch_lt :: run ++ ch_gt :: rest /\ run <> [] /\ ~ In ch_gt run /\
    n = S (S (List.length run)) /\ skipn n s = rest.
Proof.
  destruct s as [|c t]; [discriminate|]. unfold match_tag.
  destruct (N.eqb_spec c ch_lt) as [->|]; [|discriminate].
  assert (Hrun : forall u : pystr,
    u = firstn (not_gt_run u) u ++ skipn (not_gt_run u) u /\
    ~ In ch_gt (firstn (not_gt_run u) u) /\
    List.length (firstn (not_gt_run u) u) = not_gt_run u).
  { induction u as [|x u IH]; [now repeat split|]. cbn [not_gt_run].
    destruct (N.eqb_spec x ch_gt) as [->|Hx]; [now repeat split|].
    destruct IH as (IH1 & IH2 & IH3). cbn [firstn skipn app].
    repeat split; [now rewrite <- IH1| |simpl; now rewrite IH3].
    intros [H|H]; [now apply Hx|now apply IH2]. }
  destruct (Hrun t) as (H1 & H2 & H3).
  destruct (not_gt_run t) as [|k] eqn:Ek; [discriminate|].
  destruct (skipn_not_gt_run t) as [E|[r E]]; rewrite Ek in E; rewrite E;
    [discriminate|].
  intros [= <-]. exists (firstn (S k) t), r.
  rewrite E in H1. repeat split; try assumption.
  - now rewrite <- H1.
  - intros H0. rewrite H0 in H3. discriminate.
  - now rewrite H3.
  - change (skipn (S (S (S k))) (ch_lt :: t)) with (skipn (1 + S k) t).
    now rewrite <- skipn_skipn, E.
Qed.

Lemma In_sub_tags (x : pychar) (s : pystr) (k : nat) :
  In x (sub_tags k s) -> In x s.
Proof.
  revert k; induction s as [|c t IH]; intros k; [easy|].
  cbn [sub_tags]. destruct k as [|k].
  - destruct (match_tag (c :: t)) as [n|].
    + intros H. right. exact (IH _ H).
    + intros [H|H]; [now left|right; exact (IH _ H)].
  - intros H. right. exact (IH _ H).
Qed.

Lemma not_gt_run_end (s : pystr) :
  skipn (not_gt_run s) s = [] <-> ~ In ch_gt s.
Proof.
  induction s as [|c t IH]; [easy|]. cbn [not_gt_run].
  destruct (N.eqb_spec c ch_gt) as [->|Hc].
  - split; [discriminate|]. intros H. exfalso. apply H. now left.
  - cbn [skipn]. rewrite IH. split.
    + intros H [H'|H']; [now apply Hc|now apply H].
    + intros H H'. apply H. now right.
Qed.

Lemma match_tag_no_gt (c : pychar) (t : pystr) :
  ~ In ch_gt t -> match_tag (c :: t) = None.
Proof.
  intros H. apply (proj2 (not_gt_run_end t)) in H. unfold match_tag.
  destruct (c =? ch_lt)%N; [|reflexivity]. cbv zeta.
  destruct (not_gt_run t) eqn:Ek; [reflexivity|]. now rewrite H.
Qed.

Lemma tag_free_nil : tag_free [].
Proof. intros i. now destruct i. Qed.

Lemma tag_free_cons (c : pychar) (t : pystr) :
  match_tag (c :: t) = None -> tag_free t -> tag_free (c :: t).
Proof. intros H Ht [|i]; [exact H|exact (Ht i)]. Qed.

(** After the substitution no match is left: a ['<'] that was kept is
    followed by ['>'] at once, or by no ['>'] at all. *)
Lemma sub_tags_tag_free (s : pystr) : tag_free (sub_tags 0 s).
Proof.
  remember (List.length s) as n eqn:Hn.
  assert (Hle : List.length s <= n) by lia. clear Hn.
  revert s Hle; induction n as [|n IH]; intros s Hle.
  { destruct s; [apply tag_free_nil|simpl in Hle; lia]. }
  destruct s as [|c t]; [apply tag_free_nil|].
  destruct (match_tag (c :: t)) as [m|] eqn:Hm.
  - rewrite (sub_tags_match _ Hm). apply IH.
    apply match_tag_length in Hm. rewrite length_skipn.
    cbn [List.length] in *. lia.
  - rewrite (sub_tags_no_match _ _ Hm).
    apply tag_free_cons; [|apply IH; simpl in Hle; lia].
    unfold match_tag in Hm |- *.
    destruct (c =? ch_lt)%N; [|reflexivity]. cbv zeta in Hm |- *.
    destruct (skipn_not_gt_run t) as [E|[r E]].
    + apply (proj1 (not_gt_run_end t)) in E.
      assert (E' : ~ In ch_gt (sub_tags 0 t)).
      { intros H. apply E. exact (In_sub_tags _ _ _ H). }
      apply (proj2 (not_gt_run_end _)) in E'.
      destruct (not_gt_run (sub_tags 0 t)); [reflexivity|]. now rewrite E'.
    + destruct (not_gt_run t) eqn:Ek; [|rewrite E in Hm; discriminate].
      cbn [skipn] in E. subst t. reflexivity.
Qed.

(** ** History entries *)

Lemma eq_literal_true (v : json) (lit : pystr) :
  eq_literal v lit = true <-> v = JStr lit.
Proof.
  destruct v; cbn [eq_literal]; try (split; discriminate).
  rewrite str_eqb_eq. split; [now intros ->|now intros [= ->]].
Qed.

Lemma eq_literal_false (v : json) (lit : pystr) :
  eq_literal v lit = false <-> v <> JStr lit.
Proof.
  rewrite <- eq_literal_true. destruct (eq_literal v lit); split; congruence.
Qed.

Lemma history_step_line (sc : pystr) (msg : json) :
  history_step py_repr sc msg =
  let! line := history_line py_repr msg in ok (add_line sc line).
Proof.
  unfold history_step, history_line.
  destruct (py_get msg (py "role") (JStr [])) as [e|role]; [reflexivity|].
  destruct (py_get msg (py "content") (JStr [])) as [e|content]; [reflexivity|].
  cbn [rbind]. destruct (eq_literal role (py "user")); [reflexivity|].
  destruct (eq_literal role (py "assistant")); [|reflexivity].
  now destruct (re_sub_tags content).
Qed.

Lemma limit_length_long (s : pystr) :
  500 < List.length s -> limit_length s = firstn 500 s ++ py "...".
Proof.
  intros H. unfold limit_length, slice_to, adjust_index.
  destruct (Z.ltb_spec 500 (Z.of_nat (List.length s))); [|lia].
  cbn [Z.ltb Z.compare]. f_equal. f_equal. lia.
Qed.

Lemma limit_length_short (s : pystr) :
  List.length s <= 500 -> limit_length s = s.
Proof.
  intros H. unfold limit_length.
  destruct (Z.ltb_spec 500 (Z.of_nat (List.length s))); [lia|reflexivity].
Qed.


Lemma history_line_assistant (d : pydict) (c : pystr) :
  dict_get d (py "role") (JStr []) = JStr (py "assistant") ->
  dict_get d (py "content") (JStr []) = JStr c ->
  history_line py_repr (JObj d) =
  ok (Some (py "You: ", limit_length (sub_tags 0 c))).
Proof.
  intros Hr Hc. unfold history_line. cbn [py_get rbind ok].
  now rewrite Hr, Hc.
Qed.

Lemma history_line_user (d : pydict) :
  dict_get d (py "role") (JStr []) = JStr (py "user") ->
  history_line py_repr (JObj d) =
  ok (Some (py "Patient: ", py_str py_repr (dict_get d (py "content") (JStr [])))).
Proof.
  intros Hr. unfold history_line. cbn [py_get rbind ok]. now rewrite Hr.
Qed.

Lemma history_line_other (d : pydict) :
  dict_get d (py "role") (JStr []) <> JStr (py "user") ->
  dict_get d (py "role") (JStr []) <> JStr (py "assistant") ->
  history_line py_repr (JObj d) = ok None.
Proof.
  intros Hu Ha. apply eq_literal_false in Hu, Ha.
  unfold history_line. cbn [py_get rbind ok]. now rewrite Hu, Ha.
Qed.

Lemma history_loop_skip (sc : pystr) (before after : list json) (msg : json) :
  (forall sc', history_step py_repr sc' msg = ok sc') ->
  history_loop py_repr sc (before ++ msg :: after) =
  history_loop py_repr sc (before ++ after).
Proof.
  intros Hskip. revert sc; induction before as [|m before IH]; intros sc.
  - cbn [app history_loop]. now rewrite Hskip.
  - cbn [app history_loop].
    destruct (history_step py_repr sc m) as [e|sc']; [reflexivity|].
    cbn [rbind]. apply IH.
Qed.


(** C9: an entry (a JSON object) whose 'role' is neither 'user' nor
    'assistant', the missing role included, adds nothing and raises
    nothing: the loop leaves the context as it was, and the history with
    the entry gives what the history without it gives. *)
Theorem other_roles_add_nothing (d : pydict) :
  dict_get d (py "role") (JStr []) <> JStr (py "user") ->
  dict_get d (py "role") (JStr []) <> JStr (py "assistant") ->
  history_line py_repr (JObj d) = ok None /\
  (forall sc, history_step py_repr sc (JObj d) = ok sc) /\
  (forall sc before after,
     history_loop py_repr sc (before ++ JObj d :: after) =
     history_loop py_repr sc (before ++ after)).
Proof.
  intros Hu Ha.
  assert (Hstep : forall sc, history_step py_repr sc (JObj d) = ok sc).
  { intros sc. now rewrite history_step_line, (history_line_other _ Hu Ha). }
  split; [now apply history_line_other|]. split; [exact Hstep|].
  intros sc before after. now apply history_loop_skip.
Qed.

Lemma role_missing (d : pydict) :
  dict_lookup (py "role") d = None ->
  dict_get d (py "role") (JStr []) <> JStr (py "user") /\
  dict_get d (py "role") (JStr []) <> JStr (py "assistant").
Proof. intros H. unfold dict_get. rewrite H. split; discriminate. Qed.


End Properties.

(* ================================================================== *)
(** ** The properties on sample requests *)

Example last_six_of_eight :
  chat_prompt sample_repr (JStr (py "hi"))
    (JArr (map (fun n => entry (py "user") (letters n)) [1; 2; 3; 4; 5; 6; 7; 8])) (JObj [])
  = chat_prompt sample_repr (JStr (py "hi"))
    (JArr (map (fun n => entry (py "user") (letters n)) [3; 4; 5; 6; 7; 8])) (JObj []).
Proof. vm_compute. reflexivity. Qed.

Lemma non_post_is_405_witness :
  run (answering (py "<p>Rest.</p>"))
      (view sample_repr ApiChat (get_request body_message))
    = (method_not_allowed, []) /\
  run (answering (py "<p>Rest.</p>"))
      (view sample_repr ApiInitialConsultation (get_request body_intake))
    = (method_not_allowed, []).
Proof.
  split.
  - refine (proj1 (proj2 (@non_post_is_405 sample_repr
      (answering (py "<p>Rest.</p>")) ApiChat (get_request body_message) _))).
    vm_compute. discriminate.
  - refine (proj1 (proj2 (@non_post_is_405 sample_repr
      (answering (py "<p>Rest.</p>")) ApiInitialConsultation
      (get_request body_intake) _))).
    vm_compute. discriminate.
Defined.

Lemma missing_field_is_400_witness :
  run failing (view sample_repr ApiChat (post_request body_no_fields))
    = (missing_field_response ApiChat, [EvJsonLoads body_no_fields]) /\
  run failing (view sample_repr ApiInitialConsultation (post_request body_no_fields))
    = (missing_field_response ApiInitialConsultation, [EvJsonLoads body_no_fields]).
Proof.
  split.
  - refine (proj1 (@missing_field_is_400 sample_repr failing ApiChat
      (post_request body_no_fields) [] _ _ _)); reflexivity.
  - refine (proj1 (@missing_field_is_400 sample_repr failing ApiInitialConsultation
      (post_request body_no_fields) [] _ _ _)); reflexivity.
Defined.

Lemma empty_field_is_400_witness :
  run failing (view sample_repr ApiChat (post_request body_empty_message))
    = (missing_field_response ApiChat, [EvJsonLoads body_empty_message]) /\
  run failing (view sample_repr ApiInitialConsultation (post_request body_empty_intake))
    = (missing_field_response ApiInitialConsultation, [EvJsonLoads body_empty_intake]).
Proof.
  split.
  - refine (proj1 (@empty_field_is_400 sample_repr failing ApiChat
      (post_request body_empty_message) [(py "message", JStr [])] _ _ _));
      reflexivity.
  - refine (proj1 (@empty_field_is_400 sample_repr failing ApiInitialConsultation
      (post_request body_empty_intake) [(py "intake_data", JObj [])] _ _ _));
      reflexivity.
Defined.

Lemma api_success_is_relayed_witness :
  fst (run (answering (py "<p>Rest.</p>"))
           (view sample_repr ApiChat (post_request body_message)))
    = success_response (py "<p>Rest.</p>") /\
  fst (run (answering (py "<p>Rest.</p>"))
           (view sample_repr ApiInitialConsultation (post_request body_intake)))
    = success_response (py "<p>Rest.</p>").
Proof.
  split.
  - refine (proj1 (@api_success_is_relayed sample_repr
      (answering (py "<p>Rest.</p>")) ApiChat (post_request body_message)
      gemini_model
      (prompt_of (chat_prompt sample_repr
              (JStr (py "I have a headache")) (JArr []) (JObj [])))
      (py "<p>Rest.</p>") _ _ _)).
    + right. left. reflexivity.
    + reflexivity.
    + vm_compute. discriminate.
  - refine (proj1 (@api_success_is_relayed sample_repr
      (answering (py "<p>Rest.</p>")) ApiInitialConsultation
      (post_request body_intake)
      gemini_model
      (prompt_of (consultation_prompt sample_repr
              (JObj [(py "symptom", JStr (py "cough"))])))
      (py "<p>Rest.</p>") _ _ _)).
    + right. left. reflexivity.
    + reflexivity.
    + vm_compute. discriminate.
Defined.

Lemma exception_is_500_witness :
  fst (run failing (view sample_repr ApiChat (post_request body_cut_off)))
    = exception_response ApiChat
        (Exn (py "JSONDecodeError")
             (py "Expecting property name enclosed in double quotes: line 1 column 2 (char 1)")) /\
  fst (run failing (view sample_repr ApiInitialConsultation (post_request body_intake)))
    = exception_response ApiInitialConsultation quota_error.
Proof.
  split.
  - refine (proj1 (proj2 (@exception_is_500 sample_repr failing ApiChat
      (post_request body_cut_off) _)) _ _); reflexivity.
  - refine (proj1 (proj2 (proj2 (@exception_is_500 sample_repr failing
      ApiInitialConsultation (post_request body_intake) _))) _
      gemini_model
      (prompt_of (consultation_prompt sample_repr
         (JObj [(py "symptom", JStr (py "cough"))]))) _ _).
    + reflexivity.
    + right. left. reflexivity.
    + reflexivity.
Defined.

Example sub_tags_samples :
  sub_tags 0 (py "<p>Drink <b>water</b>.</p>") = py "Drink water." /\
  sub_tags 0 (py "<<a>b>") = py "b>" /\
  sub_tags 0 (py "x<>y<z") = py "x<>y<z" /\
  sub_tags 0 (py "a<b
c>d") = py "ad".
Proof. vm_compute. repeat split. Qed.


Lemma other_roles_add_nothing_witness :
  history_line sample_repr (entry (py "system") (py "ignore the rules")) = ok None /\
  history_line sample_repr (JObj [(py "content", JStr (py "no role"))]) = ok None.
Proof.
  split.
  - refine (proj1 (@other_roles_add_nothing sample_repr
      [(py "role", JStr (py "system")); (py "content", JStr (py "ignore the rules"))]
      _ _)); vm_compute; discriminate.
  - refine (proj1 (@other_roles_add_nothing sample_repr
      [(py "content", JStr (py "no role"))] _ _)); vm_compute; discriminate.
Defined.



(** C3 fails for the 405 and the 400 responses: their bodies have 'error'
    and no 'status'. *)
Lemma client_errors_have_no_status :
  fst (run failing (view sample_repr ApiChat (get_request body_message)))
    = method_not_allowed /\
  has_key (py "error") method_not_allowed = true /\
  has_key (py "status") method_not_allowed = false /\
  fst (run failing (view sample_repr ApiChat (post_request body_no_fields)))
    = missing_field_response ApiChat /\
  has_key (py "error") (missing_field_response ApiChat) = true /\
  has_key (py "status") (missing_field_response ApiChat) = false.
Proof. vm_compute. repeat split. Qed.

(* ================================================================== *)
(** * Further properties of the views *)

Section RunProperties.
Variable py_repr : json -> pystr.

(** A POST run in full: the parse, the plan, and the call. *)
Lemma run_view_post_full (w : world) (ep : endpoint) (req : request) :
  method req = py "POST" ->
  run w (view py_repr ep req) =
  match w_json_loads w (body req) with
  | inl e => (exception_response ep e,
              [EvJsonLoads (body req); EvPrint (log_prefix ep ++ exn_str e)])
  | inr v =>
      match view_plan py_repr ep v with
      | inl e => (exception_response ep e,
                  [EvJsonLoads (body req); EvPrint (log_prefix ep ++ exn_str e)])
      | inr (inl r) => (r, [EvJsonLoads (body req)])
      | inr (inr prompt) =>
          match (let! response := w_generate_content w gemini_model prompt in
                 relay response (no_response_message ep)) with
          | inl e => (exception_response ep e,
                      [EvJsonLoads (body req);
                       EvGenerateContent gemini_model prompt;
                       EvPrint (log_prefix ep ++ exn_str e)])
          | inr r => (r, [EvJsonLoads (body req);
                          EvGenerateContent gemini_model prompt])
          end
      end
  end.
Proof.
  intros Hm. rewrite (run_view_post py_repr w ep req Hm), run_view_try.
  destruct (w_json_loads w (body req)) as [e|v]; [reflexivity|].
  destruct (view_plan py_repr ep v) as [e|[r|prompt]]; reflexivity.
Qed.

Lemma view_plan_not_object (ep : endpoint) (v : json) :
  is_object v = false ->
  view_plan py_repr ep v = raise (AttributeError v (py "get")).
Proof. destruct v, ep; try discriminate; reflexivity. Qed.

(** X1: a POST body that is JSON but not an object (a list, a string, a
    number, [true], [null]) is answered by the [except] clause: HTTP 500
    with the [AttributeError] of [data.get] in 'details'; the model is not
    called. *)
Theorem non_object_body_is_500
  (w : world) (ep : endpoint) (req : request) (v : json) :
  method req = py "POST" ->
  w_json_loads w (body req) = ok v ->
  is_object v = false ->
  run w (view py_repr ep req) =
  (exception_response ep (AttributeError v (py "get")),
   [EvJsonLoads (body req);
    EvPrint (log_prefix ep ++ exn_str (AttributeError v (py "get")))]).
Proof.
  intros Hm Hj Hv.
  rewrite (run_view_post_full w ep req Hm), Hj. cbn [ok].
  now rewrite (view_plan_not_object ep v Hv).
Qed.

Lemma view_plan_chat (d : pydict) :
  truthy (dict_get d (py "message") (JStr [])) = true ->
  view_plan py_repr ApiChat (JObj d) =
  let! full_prompt :=
    chat_prompt py_repr (dict_get d (py "message") (JStr []))
      (dict_get d (py "history") (JArr [])) (dict_get d (py "intake_data") (JObj [])) in
  ok (inr full_prompt).
Proof. intros H. cbn [view_plan py_get rbind ok]. now rewrite H. Qed.

Lemma view_plan_consultation (d : pydict) :
  truthy (dict_get d (py "intake_data") (JObj [])) = true ->
  view_plan py_repr ApiInitialConsultation (JObj d) =
  let! prompt :=
    consultation_prompt py_repr (dict_get d (py "intake_data") (JObj [])) in
  ok (inr prompt).
Proof. intros H. cbn [view_plan py_get rbind ok]. now rewrite H. Qed.

(** X2: when building the chat prompt raises (a history that is not a
    list, an entry that is not an object, ...), the request is answered
    HTTP 500 with that exception in 'details', and the model is not
    called. *)
Theorem chat_prompt_failure_is_500
  (w : world) (req : request) (d : pydict) (e : exn) :
  method req = py "POST" ->
  w_json_loads w (body req) = ok (JObj d) ->
  truthy (dict_get d (py "message") (JStr [])) = true ->
  chat_prompt py_repr (dict_get d (py "message") (JStr []))
    (dict_get d (py "history") (JArr []))
    (dict_get d (py "intake_data") (JObj [])) = raise e ->
  run w (chat_api py_repr req) =
  (exception_response ApiChat e,
   [EvJsonLoads (body req); EvPrint (log_prefix ApiChat ++ exn_str e)]).
Proof.
  intros Hm Hj Ht He. change (chat_api py_repr) with (view py_repr ApiChat).
  rewrite (run_view_post_full w ApiChat req Hm), Hj. cbn [ok].
  now rewrite (view_plan_chat d Ht), He.
Qed.

Lemma consultation_prompt_object (i : pydict) :
  exists p, consultation_prompt py_repr (JObj i) = ok p.
Proof. unfold consultation_prompt. cbn [py_get rbind ok]. eauto. Qed.

Lemma consultation_prompt_not_object (v : json) :
  is_object v = false ->
  consultation_prompt py_repr v = raise (AttributeError v (py "get")).
Proof. destruct v; try discriminate; reflexivity. Qed.

(** X3: an 'intake_data' that is true but not an object (a non-empty
    string or list, a number) passes the presence check of the initial
    consultation and then fails at the first [intake_data.get]: HTTP 500,
    no call of the model. *)
Theorem consultation_intake_not_object_is_500
  (w : world) (req : request) (d : pydict) (v : json) :
  method req = py "POST" ->
  w_json_loads w (body req) = ok (JObj d) ->
  dict_lookup (py "intake_data") d = Some v ->
  truthy v = true ->
  is_object v = false ->
  run w (initial_consultation_api py_repr req) =
  (exception_response ApiInitialConsultation (AttributeError v (py "get")),
   [EvJsonLoads (body req);
    EvPrint (log_prefix ApiInitialConsultation
               ++ exn_str (AttributeError v (py "get")))]).
Proof.
  intros Hm Hj Hl Ht Hv.
  change (initial_consultation_api py_repr)
    with (view py_repr ApiInitialConsultation).
  assert (Hg : dict_get d (py "intake_data") (JObj []) = v)
    by (unfold dict_get; now rewrite Hl).
  rewrite (run_view_post_full w ApiInitialConsultation req Hm), Hj. cbn [ok].
  rewrite view_plan_consultation by now rewrite Hg.
  now rewrite Hg, (consultation_prompt_not_object v Hv).
Qed.

(** X4: every non-empty intake object is accepted by the initial
    consultation, whatever its keys and values: the prompt is built and
    the model is called once with it. *)
Theorem consultation_accepts_any_object
  (w : world) (req : request) (d i : pydict) :
  method req = py "POST" ->
  w_json_loads w (body req) = ok (JObj d) ->
  dict_lookup (py "intake_data") d = Some (JObj i) ->
  i <> [] ->
  exists p,
    consultation_prompt py_repr (JObj i) = ok p /\
    firstn 2 (snd (run w (initial_consultation_api py_repr req))) =
    [EvJsonLoads (body req); EvGenerateContent gemini_model p].
Proof.
  intros Hm Hj Hl Hi.
  change (initial_consultation_api py_repr)
    with (view py_repr ApiInitialConsultation).
  assert (Hg : dict_get d (py "intake_data") (JObj []) = JObj i)
    by (unfold dict_get; now rewrite Hl).
  destruct (consultation_prompt_object i) as [p Hp]. exists p.
  split; [exact Hp|].
  rewrite (run_view_post_full w ApiInitialConsultation req Hm), Hj. cbn [ok].
  rewrite view_plan_consultation by (rewrite Hg; now destruct i).
  rewrite Hg, Hp. cbn [rbind ok]. now destruct (rbind _ _).
Qed.

Lemma relay_no_text (ep : endpoint) (response : gen_response) :
  response = NoResponse \/ response = Response (ok []) ->
  relay response (no_response_message ep) = ok (no_response_response ep).
Proof. now intros [-> | ->]. Qed.

Lemma run_view_called_full
  (w : world) (ep : endpoint) (req : request) (m p : pystr) :
  In (EvGenerateContent m p) (snd (run w (view py_repr ep req))) ->
  m = gemini_model /\
  run w (view py_repr ep req) =
  match (let! response := w_generate_content w m p in
         relay response (no_response_message ep)) with
  | inl e => (exception_response ep e,
              [EvJsonLoads (body req); EvGenerateContent m p;
               EvPrint (log_prefix ep ++ exn_str e)])
  | inr r => (r, [EvJsonLoads (body req); EvGenerateContent m p])
  end.
Proof.
  destruct (str_eqb (method req) (py "POST")) eqn:Hm.
  2:{ rewrite (run_view_not_post py_repr ep req Hm). intros []. }
  apply str_eqb_eq in Hm. rewrite (run_view_post_full w ep req Hm).
  destruct (w_json_loads w (body req)) as [e|v].
  { intros [H|[H|[]]]; discriminate. }
  destruct (view_plan py_repr ep v) as [e|[r|prompt]].
  { intros [H|[H|[]]]; discriminate. }
  { intros [H|[]]; discriminate. }
  intros Hin.
  assert (Hmp : m = gemini_model /\ p = prompt).
  { destruct (rbind _ _); cbn [snd] in Hin;
      destruct Hin as [H|[H|H]]; try discriminate;
      try (now inversion H); try (now destruct H).
    all: destruct H as [H|[]]; discriminate. }
  destruct Hmp as [-> ->]. split; reflexivity.
Qed.

(** X5: when the model answers with a false response object or with an
    empty text, both views answer HTTP 500 with the body
    [{'error': ..., 'status': 'error'}], without 'details' and without
    logging: the [except] clause is not involved. *)
Theorem no_text_is_500
  (w : world) (ep : endpoint) (req : request) (m p : pystr) (response : gen_response) :
  In (EvGenerateContent m p) (snd (run w (view py_repr ep req))) ->
  w_generate_content w m p = ok response ->
  response = NoResponse \/ response = Response (ok []) ->
  run w (view py_repr ep req) =
    (no_response_response ep,
     [EvJsonLoads (body req); EvGenerateContent m p]) /\
  status_code (no_response_response ep) = 500%Z /\
  has_key (py "details") (no_response_response ep) = false.
Proof.
  intros Hin Hgen Hresp.
  destruct (run_view_called_full w ep req m p Hin) as [_ ->].
  rewrite Hgen. cbn [rbind ok]. rewrite (relay_no_text ep Hresp).
  now destruct ep.
Qed.

End RunProperties.

Section TraceProperties.
Variable py_repr : json -> pystr.

Lemma relay_no_details (ep : endpoint) (response : gen_response) (r : JsonResponse) :
  relay response (no_response_message ep) = ok r ->
  has_key (py "details") r = false.
Proof.
  destruct response as [|[e|t]]; cbn [relay rbind].
  - now intros [= <-].
  - discriminate.
  - destruct (truthy (JStr t)); now intros [= <-].
Qed.

Lemma view_plan_no_details (ep : endpoint) (v : json) (r : JsonResponse) :
  view_plan py_repr ep v = ok (inl r) ->
  has_key (py "details") r = false.
Proof.
  destruct ep; cbn [view_plan].
  - destruct (py_get v (py "message") (JStr [])) as [e|um]; [discriminate|].
    destruct (py_get v (py "history") (JArr [])) as [e|h]; [discriminate|].
    destruct (py_get v (py "intake_data") (JObj [])) as [e|i]; [discriminate|].
    cbn [rbind]. destruct (negb (truthy um)).
    + now intros [= <-].
    + destruct (chat_prompt _ _ _ _); discriminate.
  - destruct (py_get v (py "intake_data") (JObj [])) as [e|i]; [discriminate|].
    cbn [rbind]. destruct (negb (truthy i)).
    + now intros [= <-].
    + destruct (consultation_prompt _ _); discriminate.
Qed.

(** X6: a view parses the body at most once and calls the model at most
    once, always as 'gemini-2.5-flash', and never again after a failure;
    it logs one line exactly when its response carries 'details' (the
    [except] clause ran); and it does nothing at all exactly when the
    method is not POST. *)
Theorem view_trace_shape (w : world) (ep : endpoint) (req : request) :
  trace_shape (body req) (snd (run w (view py_repr ep req))) /\
  has_print (snd (run w (view py_repr ep req)))
    = has_key (py "details") (fst (run w (view py_repr ep req))) /\
  (snd (run w (view py_repr ep req)) = [] <-> method req <> py "POST").
Proof.
  destruct (str_eqb (method req) (py "POST")) eqn:Hm.
  2:{ rewrite (run_view_not_post py_repr ep req Hm).
      apply str_eqb_neq in Hm. repeat split; try constructor; easy. }
  apply str_eqb_eq in Hm. rewrite (run_view_post_full py_repr w ep req Hm).
  assert (Hne : forall (x : event) l, x :: l = [] <-> method req <> py "POST").
  { intros x l. split; [discriminate|congruence]. }
  destruct (w_json_loads w (body req)) as [e|v].
  { split; [constructor|]. split; [reflexivity|apply Hne]. }
  destruct (view_plan py_repr ep v) as [e|[r|prompt]] eqn:Hplan.
  { split; [constructor|]. split; [reflexivity|apply Hne]. }
  { split; [constructor|]. split; [|apply Hne].
    cbn [fst snd]. now rewrite (view_plan_no_details _ _ Hplan). }
  destruct (w_generate_content w gemini_model prompt) as [e|response];
    cbn [rbind].
  { split; [constructor|]. split; [reflexivity|apply Hne]. }
  destruct (relay response (no_response_message ep)) as [e|r] eqn:Hrelay.
  { split; [constructor|]. split; [reflexivity|apply Hne]. }
  split; [constructor|]. split; [|apply Hne].
  cbn [fst snd]. now rewrite (relay_no_details _ _ Hrelay).
Qed.

Lemma dict_get_ext (d d' : pydict) (k : pystr) (default : json) :
  dict_lookup k d = dict_lookup k d' ->
  dict_get d k default = dict_get d' k default.
Proof. intros H. unfold dict_get. now rewrite H. Qed.

Lemma view_plan_ext (ep : endpoint) (d d' : pydict) :
  (forall k, In k (body_fields ep) -> dict_lookup k d = dict_lookup k d') ->
  view_plan py_repr ep (JObj d) = view_plan py_repr ep (JObj d').
Proof.
  intros H. destruct ep; cbn [view_plan py_get rbind ok body_fields] in *.
  - rewrite (dict_get_ext d d' (py "message") _ (H _ (or_introl eq_refl))).
    rewrite (dict_get_ext d d' (py "history") _ (H _ (or_intror (or_introl eq_refl)))).
    rewrite (dict_get_ext d d' (py "intake_data") _
               (H _ (or_intror (or_intror (or_introl eq_refl))))).
    reflexivity.
  - rewrite (dict_get_ext d d' (py "intake_data") _ (H _ (or_introl eq_refl))).
    reflexivity.
Qed.

(** X7: a view reads only its own keys of the body ('message', 'history'
    and 'intake_data' for the chat, 'intake_data' for the initial
    consultation): two bodies that agree on them get the same run, whatever
    other keys they hold. *)
Theorem other_body_keys_are_ignored
  (ep : endpoint) (g : pystr -> pystr -> result gen_response)
  (d d' : pydict) (req : request) :
  (forall k, In k (body_fields ep) -> dict_lookup k d = dict_lookup k d') ->
  run (World (fun _ => ok (JObj d)) g) (view py_repr ep req) =
  run (World (fun _ => ok (JObj d')) g) (view py_repr ep req).
Proof.
  intros H.
  destruct (str_eqb (method req) (py "POST")) eqn:Hm.
  2:{ now rewrite (run_view_not_post py_repr ep req Hm). }
  apply str_eqb_eq in Hm.
  rewrite !(run_view_post_full py_repr _ ep req Hm).
  cbn [w_json_loads w_generate_content ok].
  now rewrite (view_plan_ext ep d d' H).
Qed.

End TraceProperties.

Section PromptProperties.
Variable py_repr : json -> pystr.

Lemma chat_prompt_pieces (um ch idata : json) :
  chat_prompt py_repr um ch idata =
  let! sc := intake_context py_repr idata in
  let! sc := history_context py_repr sc ch in
  ok (sc ++ closing py_repr um).
Proof. reflexivity. Qed.

Lemma add_line_app (sc : pystr) (line : option (pystr * pystr)) :
  add_line sc line = sc ++ add_line [] line.
Proof. destruct line as [[label text]|]; [reflexivity|now rewrite app_nil_r]. Qed.

Lemma history_loop_block (sc : pystr) (items : list json) :
  history_loop py_repr sc items =
  let! block := history_block py_repr items in ok (sc ++ block).
Proof.
  revert sc; induction items as [|msg rest IH]; intros sc.
  - cbn [history_loop history_block rbind ok]. now rewrite app_nil_r.
  - cbn [history_loop history_block]. rewrite history_step_line.
    destruct (history_line py_repr msg) as [e|line]; [reflexivity|].
    cbn [rbind ok]. rewrite IH.
    destruct (history_block py_repr rest) as [e|block]; [reflexivity|].
    cbn [rbind ok]. now rewrite (add_line_app sc), app_assoc.
Qed.

Lemma history_loop_app (sc : pystr) (l1 l2 : list json) :
  history_loop py_repr sc (l1 ++ l2) =
  let! sc1 := history_loop py_repr sc l1 in history_loop py_repr sc1 l2.
Proof.
  revert sc; induction l1 as [|msg l1 IH]; intros sc; [reflexivity|].
  cbn [app history_loop].
  destruct (history_step py_repr sc msg) as [e|sc']; [reflexivity|].
  cbn [rbind]. apply IH.
Qed.

(** X8: the loop over the history composes: running it over [l1 ++ l2] is
    running it over [l1] and then over [l2] from the context reached; and
    what it adds does not depend on the context it starts from: it appends
    the entries' lines, in order, or raises. *)
Theorem history_loop_composes (sc : pystr) (l1 l2 : list json) :
  history_loop py_repr sc (l1 ++ l2) =
    (let! sc1 := history_loop py_repr sc l1 in history_loop py_repr sc1 l2) /\
  history_loop py_repr sc l1 =
    (let! block := history_block py_repr l1 in ok (sc ++ block)).
Proof. split; [apply history_loop_app|apply history_loop_block]. Qed.

Lemma intake_context_prefix (idata : json) (sc : pystr) :
  intake_context py_repr idata = ok sc ->
  exists block, sc = system_context_base ++ block.
Proof.
  unfold intake_context. destruct (truthy idata).
  - destruct (patient_information py_repr idata) as [e|block]; [discriminate|].
    intros [= <-]. now exists block.
  - intros [= <-]. exists []. now rewrite app_nil_r.
Qed.

Lemma history_context_suffix (sc : pystr) (ch : json) (sc' : pystr) :
  history_context py_repr sc ch = ok sc' ->
  exists block, sc' = sc ++ block /\
    forall sc0, history_context py_repr sc0 ch = ok (sc0 ++ block).
Proof.
  unfold history_context. destruct (truthy ch).
  - destruct (py_last6 ch) as [e|recent]; [discriminate|]. cbn [rbind].
    destruct (py_iter recent) as [e|items]; [discriminate|]. cbn [rbind].
    rewrite history_loop_block.
    destruct (history_block py_repr items) as [e|block] eqn:Hb; [discriminate|].
    intros [= <-]. exists (history_header ++ block).
    split; [now rewrite app_assoc|].
    intros sc0. rewrite history_loop_block, Hb. cbn [rbind ok].
    now rewrite app_assoc.
  - intros [= <-]. exists []. split; [now rewrite app_nil_r|].
    intros sc0. now rewrite app_nil_r.
Qed.

(** X9: a chat prompt is the fixed system context, then a middle part that
    does not depend on the message (the intake block and the history), then
    the closing section with the message: changing the message changes the
    closing section alone. *)
Theorem message_only_in_closing (um ch idata : json) (p : pystr) :
  chat_prompt py_repr um ch idata = ok p ->
  exists middle,
    p = system_context_base ++ middle ++ closing py_repr um /\
    forall um', chat_prompt py_repr um' ch idata =
                ok (system_context_base ++ middle ++ closing py_repr um').
Proof.
  rewrite chat_prompt_pieces.
  destruct (intake_context py_repr idata) as [e|sc] eqn:Hi; [discriminate|].
  cbn [rbind].
  destruct (history_context py_repr sc ch) as [e|sc'] eqn:Hh; [discriminate|].
  cbn [rbind]. intros [= <-].
  destruct (intake_context_prefix _ Hi) as [b1 ->].
  destruct (history_context_suffix _ _ Hh) as (b2 & -> & Hall).
  exists (b1 ++ b2). split; [now rewrite !app_assoc|].
  intros um'. rewrite chat_prompt_pieces, Hi. cbn [rbind]. rewrite Hall.
  cbn [rbind ok]. now rewrite !app_assoc.
Qed.

(** X10: a history or an intake value that is false, of any type ([null],
    [false], [0], [""], [[]], [{}]), is the same as an absent one. *)
Theorem falsy_fields_are_absent (um ch idata : json) :
  chat_prompt py_repr um ch idata =
  chat_prompt py_repr um (if truthy ch then ch else JArr [])
                         (if truthy idata then idata else JObj []).
Proof.
  rewrite !chat_prompt_pieces. unfold intake_context, history_context.
  destruct (truthy idata) eqn:Hi, (truthy ch) eqn:Hc;
    rewrite ?Hi, ?Hc; reflexivity.
Qed.

(** X11: an 'intake_data' of the chat body that is true but not an object
    makes the prompt raise the [AttributeError] of its first
    [intake_data.get], whatever the message and the history. *)
Theorem chat_intake_not_object_fails (um ch idata : json) :
  truthy idata = true ->
  is_object idata = false ->
  chat_prompt py_repr um ch idata = raise (AttributeError idata (py "get")).
Proof.
  intros Ht Ho. rewrite chat_prompt_pieces. unfold intake_context. rewrite Ht.
  destruct idata; try discriminate; reflexivity.
Qed.

(** X12: a history that is true but not a list never yields a prompt: a
    string fails at [msg.get] on its first character, a dict at the slice,
    a number or [true] at the subscript. *)
Theorem history_not_list_fails (um ch idata : json) :
  truthy ch = true ->
  is_list ch = false ->
  exists e, chat_prompt py_repr um ch idata = raise e.
Proof.
  intros Ht Hl. rewrite chat_prompt_pieces.
  destruct (intake_context py_repr idata) as [e|sc]; [now exists e|].
  cbn [rbind]. unfold history_context. rewrite Ht.
  destruct ch as [| | | |s|l|d]; try discriminate; cbn [py_last6 rbind raise ok];
    try (eexists; reflexivity).
  destruct (slice_from (-6) s) as [|c s'] eqn:Hs.
  - exfalso. rewrite slice_from_last_entries in Hs.
    apply (proj1 (last_entries_nil_iff s)) in Hs. now subst s.
  - cbn [py_iter map ok rbind history_loop]. eexists. reflexivity.
Qed.

Lemma history_line_malformed (msg : json) :
  malformed_entry msg = true <-> exists e, history_line py_repr msg = raise e.
Proof.
  unfold malformed_entry, history_line.
  destruct msg as [| | | | | |d]; cbn [py_get rbind raise ok];
    try (split; [intros _; eexists; reflexivity|reflexivity]).
  destruct (eq_literal (dict_get d (py "role") (JStr [])) (py "user")) eqn:Hu.
  { apply eq_literal_true in Hu. rewrite Hu. cbn.
    split; [discriminate|intros [e He]; discriminate]. }
  destruct (eq_literal (dict_get d (py "role") (JStr [])) (py "assistant")).
  2:{ cbn. split; [discriminate|intros [e He]; discriminate]. }
  destruct (dict_get d (py "content") (JStr []));
    cbn [andb negb is_string re_sub_tags rbind raise ok];
    try (split; [intros _; eexists; reflexivity|reflexivity]).
  split; [discriminate|intros [e He]; discriminate].
Qed.

Lemma history_block_fails (items : list json) :
  existsb malformed_entry items = true <->
  exists e, history_block py_repr items = raise e.
Proof.
  induction items as [|msg rest IH]; cbn [existsb history_block].
  - split; [discriminate|intros [e He]; discriminate].
  - rewrite orb_true_iff, IH, history_line_malformed. split.
    + intros [[e He]|[e He]].
      * exists e. now rewrite He.
      * destruct (history_line py_repr msg) as [e'|line]; [now exists e'|].
        exists e. cbn [rbind]. now rewrite He.
    + intros [e He].
      destruct (history_line py_repr msg) as [e'|line]; [left; now exists e'|].
      right. cbn [rbind] in He.
      destruct (history_block py_repr rest) as [e'|block]; [now exists e'|].
      discriminate.
Qed.

(** X13: the history of a chat request is processed without an exception
    exactly when none of its last six entries is malformed (not an object,
    or an 'assistant' entry whose content is not a string); a malformed
    entry before the last six does no harm. *)
Theorem history_fails_iff_malformed (sc : pystr) (h : list json) :
  existsb malformed_entry (last_entries 6 h) = true <->
  exists e, history_context py_repr sc (JArr h) = raise e.
Proof.
  unfold history_context.
  destruct h as [|x h'].
  { split; [discriminate|intros [e He]; discriminate]. }
  cbn [truthy]. rewrite py_last6_list. cbn [rbind ok py_iter].
  rewrite history_loop_block, history_block_fails.
  split; intros [e He].
  - exists e. now rewrite He.
  - destruct (history_block py_repr (last_entries 6 (x :: h'))) as [e'|b];
      [now exists e'|discriminate].
Qed.

Lemma history_block_ignored (items : list json) :
  forallb ignored_entry items = true ->
  history_block py_repr items = ok [].
Proof.
  induction items as [|msg rest IH]; [reflexivity|].
  cbn [forallb history_block]. rewrite andb_true_iff. intros [Hm Hr].
  rewrite (IH Hr). destruct msg as [| | | | | |d]; try discriminate.
  unfold ignored_entry in Hm. rewrite andb_true_iff, !negb_true_iff in Hm.
  destruct Hm as [Hu Ha]. unfold history_line. cbn [py_get rbind ok].
  now rewrite Hu, Ha.
Qed.

(** X14: a non-empty history whose last six entries are all passed over
    (roles other than 'user' and 'assistant') still adds the
    'RECENT CONVERSATION' header, with no line under it; an empty history
    adds nothing. *)
Theorem ignored_history_adds_header (sc : pystr) (h : list json) :
  h <> [] ->
  forallb ignored_entry (last_entries 6 h) = true ->
  history_context py_repr sc (JArr h) = ok (sc ++ history_header) /\
  history_context py_repr sc (JArr []) = ok sc.
Proof.
  intros Hne Hall. split; [|reflexivity].
  unfold history_context. destruct h as [|x h']; [congruence|].
  cbn [truthy]. rewrite py_last6_list. cbn [rbind ok py_iter].
  rewrite history_loop_block, (history_block_ignored _ Hall).
  cbn [rbind ok]. now rewrite app_nil_r.
Qed.

Lemma fields_of (d : pydict) :
  read_fields d intake_fields =
  [dict_get d (py "ageRange") (JStr (py "Not specified"));
   dict_get d (py "sex") (JStr (py "Not specified"));
   dict_get d (py "symptom") (JStr (py "Not specified"));
   dict_get d (py "duration") (JStr (py "Not specified"));
   dict_get d (py "severity") (JStr (py "Not specified"));
   dict_get d (py "context") (JStr (py "None provided"))].
Proof. reflexivity. Qed.

(** X15: the intake block of the chat prompt and the initial consultation
    prompt read six keys of the intake object and nothing else: two intake
    objects that agree on them (a missing key counting as its default
    text) give the same text, and an object never makes them raise. *)
Theorem intake_reads_six_fields (d d' : pydict) :
  read_fields d intake_fields = read_fields d' intake_fields ->
  patient_information py_repr (JObj d) = patient_information py_repr (JObj d') /\
  consultation_prompt py_repr (JObj d) = consultation_prompt py_repr (JObj d') /\
  (exists block, patient_information py_repr (JObj d) = ok block) /\
  (exists prompt, consultation_prompt py_repr (JObj d) = ok prompt).
Proof.
  rewrite !fields_of. intros [= H1 H2 H3 H4 H5 H6].
  unfold patient_information, consultation_prompt. cbn [py_get rbind ok].
  rewrite H1, H2, H3, H4, H5, H6. repeat split; eexists; reflexivity.
Qed.

End PromptProperties.

Section TextProperties.

Lemma tag_free_inv (c : pychar) (t : pystr) :
  tag_free (c :: t) -> match_tag (c :: t) = None /\ tag_free t.
Proof. intros H. split; [exact (H 0)|intros i; exact (H (S i))]. Qed.

Lemma sub_tags_fixed (s : pystr) : tag_free s -> sub_tags 0 s = s.
Proof.
  induction s as [|c t IH]; [reflexivity|].
  intros H. destruct (tag_free_inv H) as [Hm Ht].
  now rewrite (sub_tags_no_match c t Hm), (IH Ht).
Qed.

(** X16: the text the substitution leaves unchanged is exactly the text
    that holds no match of [<[^>]+>]; applying the substitution twice gives
    what applying it once gives. *)
Theorem sub_tags_idempotent (s : pystr) :
  (sub_tags 0 s = s <-> tag_free s) /\
  sub_tags 0 (sub_tags 0 s) = sub_tags 0 s.
Proof.
  split; [split|].
  - intros H. rewrite <- H. apply sub_tags_tag_free.
  - apply sub_tags_fixed.
  - apply sub_tags_fixed, sub_tags_tag_free.
Qed.

Lemma match_tag_not_lt (c : pychar) (t : pystr) :
  c <> ch_lt -> match_tag (c :: t) = None.
Proof.
  intros H. unfold match_tag. now destruct (N.eqb_spec c ch_lt).
Qed.

Lemma tag_free_no_lt (s : pystr) : ~ In ch_lt s -> tag_free s.
Proof.
  induction s as [|c t IH]; intros H; [apply tag_free_nil|].
  apply tag_free_cons.
  - apply match_tag_not_lt. intros ->. apply H. now left.
  - apply IH. intros H'. apply H. now right.
Qed.

Lemma tag_free_no_gt (s : pystr) : ~ In ch_gt s -> tag_free s.
Proof.
  induction s as [|c t IH]; intros H; [apply tag_free_nil|].
  assert (Ht : ~ In ch_gt t) by (intros H'; apply H; now right).
  apply tag_free_cons; [now apply match_tag_no_gt|now apply IH].
Qed.

(** X17: a text without ['<'], and a text without ['>'] (a lone
    comparison such as [a < b]), pass the substitution unchanged. *)
Theorem text_without_pair_is_kept (s : pystr) :
  ~ In ch_lt s \/ ~ In ch_gt s ->
  sub_tags 0 s = s.
Proof.
  intros [H|H]; apply sub_tags_fixed;
    [now apply tag_free_no_lt|now apply tag_free_no_gt].
Qed.

Lemma not_gt_run_app (run rest : pystr) :
  ~ In ch_gt run ->
  not_gt_run (run ++ ch_gt :: rest) = List.length run /\
  skipn (List.length run) (run ++ ch_gt :: rest) = ch_gt :: rest.
Proof.
  induction run as [|c run IH]; intros H.
  - split; reflexivity.
  - assert (Hc : c <> ch_gt) by (intros ->; apply H; now left).
    assert (Hr : ~ In ch_gt run) by (intros H'; apply H; now right).
    destruct (IH Hr) as [IH1 IH2]. cbn [app not_gt_run List.length skipn].
    destruct (N.eqb_spec c ch_gt); [contradiction|]. now rewrite IH1.
Qed.

Lemma match_tag_tag (run rest : pystr) :
  run <> [] -> ~ In ch_gt run ->
  match_tag (ch_lt :: run ++ ch_gt :: rest) = Some (S (S (List.length run))).
Proof.
  intros Hne Hgt. destruct (@not_gt_run_app run rest Hgt) as [H1 H2].
  unfold match_tag. rewrite N.eqb_refl. cbv zeta. rewrite H1.
  destruct run as [|c run]; [congruence|]. cbn [List.length] in *.
  now rewrite H2.
Qed.

Lemma sub_tags_prefix (pre s : pystr) :
  ~ In ch_lt pre -> sub_tags 0 (pre ++ s) = pre ++ sub_tags 0 s.
Proof.
  induction pre as [|c pre IH]; intros H; [reflexivity|].
  cbn [app]. rewrite sub_tags_no_match.
  - f_equal. apply IH. intros H'. apply H. now right.
  - apply match_tag_not_lt. intros ->. apply H. now left.
Qed.

(** X18: the first tag of a text is dropped whole and what stands before
    it is kept: for a text [pre<run>rest] where [pre] has no ['<'] and
    [run] is not empty and has no ['>'] (it may hold ['<'] and newlines),
    the result is [pre] followed by the result for [rest]. *)
Theorem sub_tags_first_tag (pre run rest : pystr) :
  ~ In ch_lt pre ->
  run <> [] ->
  ~ In ch_gt run ->
  sub_tags 0 (pre ++ ch_lt :: run ++ ch_gt :: rest) = pre ++ sub_tags 0 rest.
Proof.
  intros Hpre Hne Hgt. rewrite (@sub_tags_prefix pre _ Hpre). f_equal.
  rewrite (sub_tags_match _ (@match_tag_tag run rest Hne Hgt)).
  f_equal. change (skipn (S (S (List.length run))) (ch_lt :: run ++ ch_gt :: rest))
    with (skipn (S (List.length run)) (run ++ ch_gt :: rest)).
  replace (S (List.length run)) with (1 + List.length run) by reflexivity.
  rewrite <- skipn_skipn.
  now rewrite (proj2 (@not_gt_run_app run rest Hgt)).
Qed.

Lemma sub_tags_length_le (s : pystr) :
  List.length (sub_tags 0 s) <= List.length s.
Proof.
  remember (List.length s) as n eqn:Hn.
  assert (Hle : List.length s <= n) by lia. clear Hn.
  revert s Hle; induction n as [|n IH]; intros s Hle.
  { destruct s; [cbn; lia|cbn in Hle; lia]. }
  destruct s as [|c t]; [cbn; lia|].
  destruct (match_tag (c :: t)) as [m|] eqn:Hm.
  - rewrite (sub_tags_match _ Hm). apply match_tag_length in Hm.
    assert (H := IH (skipn m (c :: t))). rewrite length_skipn in H.
    cbn [List.length] in *. lia.
  - rewrite (sub_tags_no_match _ _ Hm). cbn [List.length] in *.
    assert (H := IH t). lia.
Qed.

(** X19: the substitution never makes a text longer, and it keeps the
    length exactly when the text holds no tag; a text with a tag loses at
    least the three characters of the shortest match. *)
Theorem sub_tags_shortens (s : pystr) :
  List.length (sub_tags 0 s) <= List.length s /\
  (List.length (sub_tags 0 s) = List.length s <-> tag_free s) /\
  (List.length (sub_tags 0 s) = List.length s \/
   List.length (sub_tags 0 s) + 3 <= List.length s).
Proof.
  assert (Hkey : tag_free s \/ List.length (sub_tags 0 s) + 3 <= List.length s).
  { induction s as [|c t IH]; [left; apply tag_free_nil|].
    destruct (match_tag (c :: t)) as [m|] eqn:Hm.
    - right. rewrite (sub_tags_match _ Hm). apply match_tag_length in Hm.
      assert (H := sub_tags_length_le (skipn m (c :: t))).
      rewrite length_skipn in H. cbn [List.length] in *. lia.
    - rewrite (sub_tags_no_match _ _ Hm). destruct IH as [IH|IH].
      + left. now apply tag_free_cons.
      + right. cbn [List.length]. lia. }
  split; [apply sub_tags_length_le|]. split.
  - split.
    + intros H. destruct Hkey as [Hk|Hk]; [exact Hk|lia].
    + intros H. now rewrite (sub_tags_fixed H).
  - destruct Hkey as [Hk|Hk]; [left; now rewrite (sub_tags_fixed Hk)|now right].
Qed.

(** X20: the length limit keeps the first 500 characters in every case and
    gives a text of the same length up to 500 characters and of exactly 503
    characters beyond: a text of 501 or 502 characters comes out longer
    than it went in. *)
Theorem limit_length_exact (s : pystr) :
  firstn 500 (limit_length s) = firstn 500 s /\
  List.length (limit_length s) =
    (if List.length s <=? 500 then List.length s else 503).
Proof.
  destruct (Nat.leb_spec (List.length s) 500) as [H|H].
  - now rewrite (limit_length_short _ H).
  - rewrite (limit_length_long _ H). split.
    + rewrite firstn_app, length_firstn.
      replace (500 - Nat.min 500 (List.length s)) with 0 by lia.
      rewrite firstn_O, app_nil_r, firstn_firstn. reflexivity.
    + rewrite length_app, length_firstn.
      change (List.length (py "...")) with 3. lia.
Qed.

End TextProperties.


Section AcceptanceProperties.
Variable py_repr : json -> pystr.

(** X22: the chat view accepts a message of any JSON type that is true (a
    string, a number, a list, an object): with no history and no intake
    data the model is called once with the system context followed by the
    closing section that holds [str(message)]. *)
Theorem chat_accepts_any_true_message
  (w : world) (req : request) (d : pydict) :
  method req = py "POST" ->
  w_json_loads w (body req) = ok (JObj d) ->
  truthy (dict_get d (py "message") (JStr [])) = true ->
  truthy (dict_get d (py "history") (JArr [])) = false ->
  truthy (dict_get d (py "intake_data") (JObj [])) = false ->
  firstn 2 (snd (run w (chat_api py_repr req))) =
  [EvJsonLoads (body req);
   EvGenerateContent gemini_model
     (system_context_base
        ++ closing py_repr (dict_get d (py "message") (JStr [])))].
Proof.
  intros Hm Hj Ht Hh Hi. change (chat_api py_repr) with (view py_repr ApiChat).
  rewrite (run_view_post_full py_repr w ApiChat req Hm), Hj. cbn [ok].
  rewrite (view_plan_chat py_repr d Ht), chat_prompt_pieces.
  unfold intake_context, history_context. rewrite Hi, Hh. cbn [rbind ok].
  now destruct (rbind _ _).
Qed.

End AcceptanceProperties.

(* ================================================================== *)
(** ** The further properties on sample requests *)

Lemma non_object_body_is_500_witness :
  run (mock (ok (JArr [])) (ok NoResponse))
      (view sample_repr ApiChat (post_request body_list)) =
  (exception_response ApiChat (AttributeError (JArr []) (py "get")),
   [EvJsonLoads body_list;
    EvPrint (log_prefix ApiChat ++ exn_str (AttributeError (JArr []) (py "get")))]).
Proof.
  refine (@non_object_body_is_500 sample_repr (mock (ok (JArr [])) (ok NoResponse))
            ApiChat (post_request body_list) (JArr []) _ _ _); reflexivity.
Defined.

Lemma chat_prompt_failure_is_500_witness :
  run (mock (ok (JObj [(py "message", JStr (py "hi"));
                       (py "history", JStr (py "abc"))])) (ok NoResponse))
      (chat_api sample_repr (post_request body_history_string)) =
  (exception_response ApiChat (AttributeError (JStr (py "a")) (py "get")),
   [EvJsonLoads body_history_string;
    EvPrint (log_prefix ApiChat
               ++ exn_str (AttributeError (JStr (py "a")) (py "get")))]).
Proof.
  refine (@chat_prompt_failure_is_500 sample_repr _ (post_request body_history_string)
            [(py "message", JStr (py "hi")); (py "history", JStr (py "abc"))]
            (AttributeError (JStr (py "a")) (py "get")) _ _ _ _); reflexivity.
Defined.

Lemma consultation_intake_not_object_is_500_witness :
  run (mock (ok (JObj [(py "intake_data", JStr (py "flu"))])) (ok NoResponse))
      (initial_consultation_api sample_repr (post_request body_intake_string)) =
  (exception_response ApiInitialConsultation
     (AttributeError (JStr (py "flu")) (py "get")),
   [EvJsonLoads body_intake_string;
    EvPrint (log_prefix ApiInitialConsultation
               ++ exn_str (AttributeError (JStr (py "flu")) (py "get")))]).
Proof.
  refine (@consultation_intake_not_object_is_500 sample_repr _
            (post_request body_intake_string)
            [(py "intake_data", JStr (py "flu"))] (JStr (py "flu")) _ _ _ _ _);
    reflexivity.
Defined.

Lemma consultation_accepts_any_object_witness :
  exists p,
    consultation_prompt sample_repr (JObj [(py "pet", JStr (py "cat"))]) = ok p /\
    firstn 2 (snd (run (mock (ok (JObj [(py "intake_data",
                                        JObj [(py "pet", JStr (py "cat"))])]))
                             (ok NoResponse))
                       (initial_consultation_api sample_repr
                          (post_request body_intake_pet)))) =
    [EvJsonLoads body_intake_pet; EvGenerateContent gemini_model p].
Proof.
  refine (@consultation_accepts_any_object sample_repr _
            (post_request body_intake_pet)
            [(py "intake_data", JObj [(py "pet", JStr (py "cat"))])]
            [(py "pet", JStr (py "cat"))] _ _ _ _);
    try reflexivity. discriminate.
Defined.

Lemma no_text_is_500_witness :
  run (answering []) (view sample_repr ApiChat (post_request body_message)) =
  (no_response_response ApiChat,
   [EvJsonLoads body_message;
    EvGenerateContent gemini_model
      (prompt_of (chat_prompt sample_repr (JStr (py "I have a headache"))
                    (JArr []) (JObj [])))]).
Proof.
  refine (proj1 (@no_text_is_500 sample_repr (answering []) ApiChat
            (post_request body_message) gemini_model
            (prompt_of (chat_prompt sample_repr (JStr (py "I have a headache"))
                          (JArr []) (JObj [])))
            (Response (ok [])) _ _ _)).
  - right. left. reflexivity.
  - reflexivity.
  - right. reflexivity.
Defined.

Lemma other_body_keys_are_ignored_witness :
  run (World (fun _ => ok (JObj [(py "message", JStr (py "hi"))]))
             (fun _ _ => ok NoResponse))
      (view sample_repr ApiChat (post_request body_message)) =
  run (World (fun _ => ok (JObj [(py "session", JInt 1);
                                 (py "message", JStr (py "hi"))]))
             (fun _ _ => ok NoResponse))
      (view sample_repr ApiChat (post_request body_message)).
Proof.
  refine (@other_body_keys_are_ignored sample_repr ApiChat _
            [(py "message", JStr (py "hi"))]
            [(py "session", JInt 1); (py "message", JStr (py "hi"))]
            (post_request body_message) _).
  intros k [<-|[<-|[<-|[]]]]; reflexivity.
Defined.

Lemma message_only_in_closing_witness :
  exists middle,
    prompt_of (chat_prompt sample_repr (JStr (py "hi"))
                 (JArr [entry (py "user") (py "hello")]) (JObj []))
      = system_context_base ++ middle ++ closing sample_repr (JStr (py "hi")) /\
    forall um', chat_prompt sample_repr um'
                  (JArr [entry (py "user") (py "hello")]) (JObj [])
                = ok (system_context_base ++ middle ++ closing sample_repr um').
Proof.
  refine (@message_only_in_closing sample_repr (JStr (py "hi"))
            (JArr [entry (py "user") (py "hello")]) (JObj []) _ _).
  vm_compute. reflexivity.
Defined.

Lemma chat_intake_not_object_fails_witness :
  chat_prompt sample_repr (JStr (py "hi")) (JArr []) (JStr (py "flu"))
  = raise (AttributeError (JStr (py "flu")) (py "get")).
Proof.
  refine (@chat_intake_not_object_fails sample_repr (JStr (py "hi")) (JArr [])
            (JStr (py "flu")) _ _); reflexivity.
Defined.

Lemma history_not_list_fails_witness :
  exists e, chat_prompt sample_repr (JStr (py "hi")) (JInt 5) (JObj []) = raise e.
Proof.
  refine (@history_not_list_fails sample_repr (JStr (py "hi")) (JInt 5) (JObj []) _ _);
    reflexivity.
Defined.

Lemma ignored_history_adds_header_witness :
  history_context sample_repr (py "CONTEXT")
    (JArr [entry (py "system") (py "be brief")])
  = ok (py "CONTEXT" ++ history_header).
Proof.
  refine (proj1 (@ignored_history_adds_header sample_repr (py "CONTEXT")
            [entry (py "system") (py "be brief")] _ _)).
  - discriminate.
  - reflexivity.
Defined.

Lemma intake_reads_six_fields_witness :
  consultation_prompt sample_repr (JObj [(py "sex", JStr (py "F"))]) =
  consultation_prompt sample_repr
    (JObj [(py "pet", JStr (py "cat")); (py "sex", JStr (py "F"))]).
Proof.
  refine (proj1 (proj2 (@intake_reads_six_fields sample_repr
            [(py "sex", JStr (py "F"))]
            [(py "pet", JStr (py "cat")); (py "sex", JStr (py "F"))] _))).
  reflexivity.
Defined.

Lemma text_without_pair_is_kept_witness :
  sub_tags 0 (py "if a < b then") = py "if a < b then".
Proof.
  refine (@text_without_pair_is_kept (py "if a < b then") _).
  right. vm_compute. intuition discriminate.
Defined.

Lemma sub_tags_first_tag_witness :
  sub_tags 0 (py "Take " ++ ch_lt :: py "b class=x" ++ ch_gt :: py "care")
  = py "Take " ++ sub_tags 0 (py "care").
Proof.
  refine (@sub_tags_first_tag (py "Take ") (py "b class=x") (py "care") _ _ _).
  - vm_compute. intuition discriminate.
  - vm_compute. discriminate.
  - vm_compute. intuition discriminate.
Defined.

Lemma chat_accepts_any_true_message_witness :
  firstn 2 (snd (run (mock (ok (JObj [(py "message", JBool true)])) (ok NoResponse))
                     (chat_api sample_repr (post_request body_message_true)))) =
  [EvJsonLoads body_message_true;
   EvGenerateContent gemini_model
     (system_context_base ++ closing sample_repr (JBool true))].
Proof.
  refine (@chat_accepts_any_true_message sample_repr _
            (post_request body_message_true) [(py "message", JBool true)] _ _ _ _ _);
    reflexivity.
Defined.

(* ================================================================== *)
(** * The history in the prompt, entry by entry *)

Section HistoryInPrompt.
Variable py_repr : json -> pystr.

(** ** The substitution against its description *)

Lemma starts_with_tag_match (s : pystr) :
  starts_with_tag s -> exists n, match_tag s = Some n.
Proof.
  intros (run & rest & -> & Hne & Hgt).
  exists (S (S (List.length run))). now apply match_tag_tag.
Qed.

Lemma match_tag_none_not_starts (s : pystr) :
  match_tag s = None -> ~ starts_with_tag s.
Proof.
  intros Hm Hs. destruct (starts_with_tag_match Hs) as [n Hn]. congruence.
Qed.

Lemma sub_tags_tag_head (run rest : pystr) :
  run <> [] -> ~ In ch_gt run ->
  sub_tags 0 (ch_lt :: run ++ ch_gt :: rest) = sub_tags 0 rest.
Proof.
  intros Hne Hgt.
  rewrite (sub_tags_match _ (@match_tag_tag run rest Hne Hgt)). f_equal.
  change (skipn (S (S (List.length run))) (ch_lt :: run ++ ch_gt :: rest))
    with (skipn (1 + List.length run) (run ++ ch_gt :: rest)).
  rewrite <- skipn_skipn.
  now rewrite (proj2 (@not_gt_run_app run rest Hgt)).
Qed.

Lemma sub_tags_removes (s : pystr) : removes_tags s (sub_tags 0 s).
Proof.
  remember (List.length s) as n eqn:Hn.
  assert (Hle : List.length s <= n) by lia. clear Hn.
  revert s Hle; induction n as [|n IH]; intros s Hle.
  { destruct s; [constructor|cbn in Hle; lia]. }
  destruct s as [|c t]; [constructor|].
  destruct (match_tag (c :: t)) as [m|] eqn:Hm.
  - destruct (match_tag_spec _ Hm) as (run & rest & Hs & Hne & Hgt & _ & _).
    rewrite Hs in *. rewrite (sub_tags_tag_head rest Hne Hgt).
    apply removes_tag; [assumption|assumption|]. apply IH.
    cbn [List.length] in Hle. rewrite length_app in Hle.
    cbn [List.length] in Hle. lia.
  - rewrite (sub_tags_no_match _ _ Hm).
    apply removes_keep; [now apply match_tag_none_not_starts|].
    apply IH. cbn [List.length] in Hle. lia.
Qed.

Lemma removes_tags_unique (s out : pystr) :
  removes_tags s out -> out = sub_tags 0 s.
Proof.
  induction 1 as [|run rest out Hne Hgt _ IH|c t out Hns _ IH].
  - reflexivity.
  - now rewrite (sub_tags_tag_head rest Hne Hgt).
  - rewrite sub_tags_no_match; [now rewrite IH|].
    destruct (match_tag (c :: t)) as [m|] eqn:Hm; [|reflexivity].
    exfalso. apply Hns.
    destruct (match_tag_spec _ Hm) as (run & rest & Hs & Hne & Hgt & _).
    now exists run, rest.
Qed.

Lemma tag_free_holds_no_tag (s : pystr) : tag_free s -> ~ holds_tag s.
Proof.
  intros Hfree (pre & run & rest & -> & Hne & Hgt).
  assert (H := Hfree (List.length pre)).
  rewrite skipn_app, skipn_all, Nat.sub_diag in H. cbn [skipn app] in H.
  rewrite (@match_tag_tag run rest Hne Hgt) in H. discriminate.
Qed.

(** C8: an entry with role 'assistant' and content [c] adds ["You: "], the
    content with its tags removed, cut to its first 500 characters followed
    by ["..."] when it is longer than 500, and a newline.  The content with
    its tags removed is [c] read from the left with every match of
    [<[^>]+>] dropped whole and every other character kept, and it is the
    only such text; no tag is left in it.  An entry with role 'user' and
    content [c] adds ["Patient: "], [c] as it is, and a newline. *)
Theorem assistant_stripped_user_verbatim (sc : pystr) (d : pydict) (c : pystr) :
  dict_get d (py "content") (JStr []) = JStr c ->
  (dict_get d (py "role") (JStr []) = JStr (py "assistant") ->
   history_step py_repr sc (JObj d) =
     ok (sc ++ py "You: " ++ limit_length (sub_tags 0 c) ++ py "
") /\
   removes_tags c (sub_tags 0 c) /\
   (forall out, removes_tags c out -> out = sub_tags 0 c) /\
   ~ holds_tag (sub_tags 0 c) /\
   tag_free (sub_tags 0 c) /\
   (500 < List.length (sub_tags 0 c) ->
    limit_length (sub_tags 0 c) = firstn 500 (sub_tags 0 c) ++ py "...") /\
   (List.length (sub_tags 0 c) <= 500 ->
    limit_length (sub_tags 0 c) = sub_tags 0 c)) /\
  (dict_get d (py "role") (JStr []) = JStr (py "user") ->
   history_step py_repr sc (JObj d) = ok (sc ++ py "Patient: " ++ c ++ py "
")).
Proof.
  intros Hc. split.
  - intros Hr. repeat split.
    + now rewrite history_step_line, (history_line_assistant py_repr _ Hr Hc).
    + apply sub_tags_removes.
    + apply removes_tags_unique.
    + apply tag_free_holds_no_tag, sub_tags_tag_free.
    + apply sub_tags_tag_free.
    + apply limit_length_long.
    + apply limit_length_short.
  - intros Hr.
    now rewrite history_step_line, (history_line_user py_repr _ Hr), Hc.
Qed.

(** ** The last six entries, in order *)

Lemma chat_prompt_history_block (um idata : json) (h : list json) :
  chat_prompt py_repr um (JArr h) idata =
  let! sc := intake_context py_repr idata in
  match h with
  | [] => ok (sc ++ closing py_repr um)
  | _ :: _ =>
      let! block := history_block py_repr (last_entries 6 h) in
      ok (sc ++ history_header ++ block ++ closing py_repr um)
  end.
Proof.
  rewrite chat_prompt_pieces.
  destruct (intake_context py_repr idata) as [e|sc]; [reflexivity|].
  cbn [rbind]. unfold history_context. destruct h as [|x h']; [reflexivity|].
  cbn [truthy]. rewrite py_last6_list. cbn [rbind ok py_iter].
  rewrite history_loop_block.
  destruct (history_block py_repr (last_entries 6 (x :: h'))) as [e|block];
    [reflexivity|].
  cbn [rbind ok]. now rewrite <- !app_assoc.
Qed.

Lemma history_block_app (l1 l2 : list json) :
  history_block py_repr (l1 ++ l2) =
  let! b1 := history_block py_repr l1 in
  let! b2 := history_block py_repr l2 in
  ok (b1 ++ b2).
Proof.
  induction l1 as [|msg l1 IH]; cbn [app history_block rbind ok].
  - now destruct (history_block py_repr l2).
  - destruct (history_line py_repr msg) as [e|line]; [reflexivity|].
    cbn [rbind]. rewrite IH.
    destruct (history_block py_repr l1) as [e|b1]; [reflexivity|].
    cbn [rbind]. destruct (history_block py_repr l2) as [e|b2]; [reflexivity|].
    cbn [rbind ok]. now rewrite app_assoc.
Qed.

Lemma run_chat_prompt
  (w : world) (req : request) (d : pydict) (p : pystr) :
  method req = py "POST" ->
  w_json_loads w (body req) = ok (JObj d) ->
  truthy (dict_get d (py "message") (JStr [])) = true ->
  chat_prompt py_repr (dict_get d (py "message") (JStr []))
    (dict_get d (py "history") (JArr []))
    (dict_get d (py "intake_data") (JObj [])) = ok p ->
  firstn 2 (snd (run w (chat_api py_repr req))) =
  [EvJsonLoads (body req); EvGenerateContent gemini_model p].
Proof.
  intros Hm Hj Ht Hp. change (chat_api py_repr) with (view py_repr ApiChat).
  rewrite (run_view_post_full py_repr w ApiChat req Hm), Hj. cbn [ok].
  rewrite (view_plan_chat py_repr d Ht), Hp. cbn [rbind ok].
  now destruct (rbind _ _).
Qed.

(** C1: the slice [conversation_history[-6:]] of a history list is its last
    six entries (all of them when there are six or fewer), a suffix of the
    list in its order.  The chat prompt of a non-empty history is the intake
    context, the header, the lines of exactly those entries one after the
    other in the order of the list, and the closing section; the lines of
    [l1 ++ l2] are the lines of [l1] followed by the lines of [l2].  So the
    prompt built from a history is the prompt built from its last six
    entries alone, the whole run of the chat view depends on the history
    through them only, and that prompt is the one sent to the model. *)
Theorem history_keeps_last_six (um idata : json) (h : list json) :
  py_last6 (JArr h) = ok (JArr (last_entries 6 h)) /\
  List.length (last_entries 6 h) = Nat.min 6 (List.length h) /\
  h = firstn (List.length h - 6) h ++ last_entries 6 h /\
  chat_prompt py_repr um (JArr h) idata =
    chat_prompt py_repr um (JArr (last_entries 6 h)) idata /\
  (forall (d : pydict) (g : pystr -> pystr -> result gen_response)
          (req : request),
     run (World (fun _ => ok (JObj ((py "history", JArr h) :: d))) g)
         (chat_api py_repr req) =
     run (World (fun _ => ok (JObj ((py "history", JArr (last_entries 6 h)) :: d))) g)
         (chat_api py_repr req)) /\
  chat_prompt py_repr um (JArr h) idata =
    (let! sc := intake_context py_repr idata in
     match h with
     | [] => ok (sc ++ closing py_repr um)
     | _ :: _ =>
         let! block := history_block py_repr (last_entries 6 h) in
         ok (sc ++ history_header ++ block ++ closing py_repr um)
     end) /\
  (forall msg : json,
     history_block py_repr [msg] =
     (let! line := history_line py_repr msg in ok (add_line [] line))) /\
  (forall l1 l2 : list json,
     history_block py_repr (l1 ++ l2) =
     (let! b1 := history_block py_repr l1 in
      let! b2 := history_block py_repr l2 in
      ok (b1 ++ b2))) /\
  (forall (w : world) (req : request) (d : pydict) (p : pystr),
     method req = py "POST" ->
     w_json_loads w (body req) = ok (JObj d) ->
     truthy (dict_get d (py "message") (JStr [])) = true ->
     dict_get d (py "history") (JArr []) = JArr h ->
     chat_prompt py_repr (dict_get d (py "message") (JStr [])) (JArr h)
       (dict_get d (py "intake_data") (JObj [])) = ok p ->
     firstn 2 (snd (run w (chat_api py_repr req))) =
     [EvJsonLoads (body req); EvGenerateContent gemini_model p]).
Proof.
  split; [apply py_last6_list|].
  split; [apply last_entries_length|].
  split; [apply last_entries_suffix|].
  split; [apply chat_prompt_last_entries|].
  split.
  { intros d g req.
    destruct (str_eqb (method req) (py "POST")) eqn:Hm.
    2:{ change (chat_api py_repr) with (view py_repr ApiChat).
        now rewrite (run_view_not_post py_repr ApiChat req Hm). }
    apply str_eqb_eq in Hm.
    change (chat_api py_repr) with (view py_repr ApiChat).
    rewrite !(run_view_post py_repr _ ApiChat req Hm), !run_view_try.
    cbn [w_json_loads w_generate_content ok].
    now rewrite view_plan_last_entries. }
  split; [apply chat_prompt_history_block|].
  split.
  { intros msg. cbn [history_block].
    destruct (history_line py_repr msg) as [e|line]; [reflexivity|].
    cbn [rbind ok]. now rewrite app_nil_r. }
  split; [apply history_block_app|].
  intros w req d p Hm Hj Ht Hh Hp.
  apply (@run_chat_prompt w req d p Hm Hj Ht). now rewrite Hh.
Qed.

End HistoryInPrompt.

(** The revised properties on sample requests. *)

Example last_six_in_order :
  history_block sample_repr (last_entries 6 eight_entries) =
  ok (py "Patient: m3
Patient: m4
Patient: m5
Patient: m6
Patient: m7
Patient: m8
").
Proof. vm_compute. reflexivity. Qed.

Lemma history_keeps_last_six_witness :
  firstn 2 (snd (run (mock (ok (JObj parsed_eight)) (ok NoResponse))
                     (chat_api sample_repr (post_request body_eight)))) =
  [EvJsonLoads body_eight;
   EvGenerateContent gemini_model
     (system_context_base ++ history_header ++ py "Patient: m3
Patient: m4
Patient: m5
Patient: m6
Patient: m7
Patient: m8
" ++ closing sample_repr (JStr (py "hi")))].
Proof.
  refine (proj2 (proj2 (proj2 (proj2 (proj2 (proj2 (proj2 (proj2
    (@history_keeps_last_six sample_repr (JStr (py "hi")) (JObj [])
       eight_entries))))))))
    (mock (ok (JObj parsed_eight)) (ok NoResponse))
    (post_request body_eight) parsed_eight _ _ _ _ _ _).
  - reflexivity.
  - reflexivity.
  - reflexivity.
  - reflexivity.
  - vm_compute. reflexivity.
Defined.

Lemma assistant_stripped_user_verbatim_witness :
  history_step sample_repr (py "RECENT:")
    (entry (py "assistant") (py "<p>Drink <b>water</b>.</p>"))
  = ok (py "RECENT:" ++ py "You: " ++ py "Drink water." ++ py "
") /\
  history_step sample_repr (py "RECENT:")
    (entry (py "user") (py "<p>Drink <b>water</b>.</p>"))
  = ok (py "RECENT:" ++ py "Patient: " ++ py "<p>Drink <b>water</b>.</p>" ++ py "
").
Proof.
  split.
  - refine (eq_trans (proj1 (proj1 (@assistant_stripped_user_verbatim sample_repr
      (py "RECENT:")
      [(py "role", JStr (py "assistant"));
       (py "content", JStr (py "<p>Drink <b>water</b>.</p>"))]
      (py "<p>Drink <b>water</b>.</p>") eq_refl) eq_refl)) _).
    vm_compute. reflexivity.
  - refine (proj2 (@assistant_stripped_user_verbatim sample_repr
      (py "RECENT:")
      [(py "role", JStr (py "user"));
       (py "content", JStr (py "<p>Drink <b>water</b>.</p>"))]
      (py "<p>Drink <b>water</b>.</p>") _) _); reflexivity.
Defined.
